(** * Multi-model medical prompt generator: a model of [prompt_generator.py]

    The script builds a templated instruction from four form fields, sends it
    to every registered text-generation model, scores each generated text by
    word counts and shows the best one.  This file embeds the script's logic
    (template, scoring, comparison loop, best-model selection, comment
    buckets, tokenizer padding set-up) and proves the properties its
    specification states about it.

    Python values are modelled as follows.
    - [str] is a sequence of Unicode code points: [pystr := list N].
    - [int] is unbounded: [Z].
    - [dict] keeps insertion order: an association list whose keys are
      pairwise distinct ([pydict]).
    - an exception aborts the enclosing [try] body: the sum [exn + A].
    - tokenizers and models are external; they are reached through the
      [Backend] interface, which threads the sampler's hidden state. *)

From Stdlib Require Import String Ascii ZArith NArith Bool Lia List.
Import ListNotations.
Open Scope string_scope.
Open Scope list_scope.

Set Implicit Arguments.

(* ================================================================== *)
(** ** Python strings *)

Definition pystr : Type := list N.

(** A source literal, character by character. *)
Definition py (s : string) : pystr := map N_of_ascii (list_ascii_of_string s).

(** [len(x)] *)
Definition len {A : Type} (l : list A) : Z := Z.of_nat (List.length l).

(** [str.isspace] on one code point: the code points CPython classifies as
    whitespace (bidirectional class WS, B or S, or category Zs). *)
Definition isspace (c : N) : bool :=
  (((9 <=? c) && (c <=? 13)) || ((28 <=? c) && (c <=? 32)) ||
   (c =? 133) || (c =? 160) || (c =? 5760) ||
   ((8192 <=? c) && (c <=? 8202)) ||
   (c =? 8232) || (c =? 8233) || (c =? 8239) || (c =? 8287) ||
   (c =? 12288))%N.

(** Truth value of a string in [if s:] : non-empty. *)
Definition truthy (s : pystr) : bool :=
  match s with [] => false | _ :: _ => true end.

(** The word collected so far, emitted when it is not empty. *)
Definition flush (word : pystr) : list pystr :=
  match word with [] => [] | _ :: _ => [word] end.

(** [str.split()] without arguments: runs of whitespace separate the words,
    leading and trailing whitespace is skipped, no empty word is produced. *)
Fixpoint split_from (word : pystr) (s : pystr) : list pystr :=
  match s with
  | [] => flush word
  | c :: rest =>
      if isspace c then flush word ++ split_from [] rest
      else split_from (word ++ [c]) rest
  end.

Definition split (s : pystr) : list pystr := split_from [] s.

(** [str.strip()] without arguments. *)
Fixpoint lstrip (s : pystr) : pystr :=
  match s with
  | [] => []
  | c :: rest => if isspace c then lstrip rest else s
  end.

Definition rstrip (s : pystr) : pystr := rev (lstrip (rev s)).

Definition strip (s : pystr) : pystr := rstrip (lstrip s).

(** [' '.join(words)] *)
Fixpoint join_space (words : list pystr) : pystr :=
  match words with
  | [] => []
  | [w] => w
  | w :: more => w ++ py " " ++ join_space more
  end.

Fixpoint str_eqb (a b : pystr) : bool :=
  match a, b with
  | [], [] => true
  | x :: a', y :: b' => N.eqb x y && str_eqb a' b'
  | _, _ => false
  end.

(* ------------------------------------------------------------------ *)
(** *** Whitespace-delimited tokens, as the specification words them

    A token is a maximal run of non-whitespace characters: it starts at a
    non-whitespace character that is the first of the text or follows a
    whitespace character, and it extends to the next whitespace character
    or to the end of the text. *)

Fixpoint take_word (s : pystr) : pystr :=
  match s with
  | [] => []
  | c :: rest => if isspace c then [] else c :: take_word rest
  end.

Fixpoint tokens_from (at_boundary : bool) (s : pystr) : list pystr :=
  match s with
  | [] => []
  | c :: rest =>
      if isspace c then tokens_from true rest
      else (if at_boundary then [take_word s] else []) ++ tokens_from false rest
  end.

Definition whitespace_delimited_tokens (s : pystr) : list pystr :=
  tokens_from true s.

(* ================================================================== *)
(** ** Scoring: [evaluate_prompt] *)

Definition evaluate_prompt (prompt : pystr) : Z * Z * Z :=
  let length_score := len (split prompt) in
  let clarity_score :=
    len (filter (fun word => (len word >? 3)%Z) (split prompt)) in
  let final_score := (length_score + clarity_score)%Z in
  (length_score, clarity_score, final_score).

Definition length_score_of (prompt : pystr) : Z := fst (fst (evaluate_prompt prompt)).
Definition clarity_score_of (prompt : pystr) : Z := snd (fst (evaluate_prompt prompt)).
Definition final_score_of (prompt : pystr) : Z := snd (evaluate_prompt prompt).

(* ================================================================== *)
(** ** The instruction template (lines 18-23 of the script) *)

Definition closing_sentence : pystr :=
  py " Avoid any extra information, references, or irrelevant content. Keep the prompt focused only on the image generation task.".

(** The value of [base_prompt] when the template block is left.  The
    variable is assigned once and then extended by [+=] three times, two of
    them guarded by the truth value of [condition] and of [details]. *)
Definition base_prompt (description modality condition details : pystr) : pystr :=
  let base_prompt :=
    py "Generate a " ++ modality ++ py " scan of " ++ description ++
    py ". Focus on the medical imaging context only." in
  let base_prompt :=
    if truthy condition
    then base_prompt ++ (py " Focus on capturing " ++ condition ++ py ".")
    else base_prompt in
  let base_prompt :=
    if truthy details
    then base_prompt ++ (py " Include details such as " ++ details ++ py ".")
    else base_prompt in
  base_prompt ++ closing_sentence.

(** The template as the specification words it: an optional field counts as
    present when it is non-empty after trimming. *)
Definition present_after_trim (field : pystr) : bool := truthy (strip field).

Definition build_as_specified (description modality condition details : pystr) : pystr :=
  (py "Generate a " ++ modality ++ py " scan of " ++ description ++
   py ". Focus on the medical imaging context only.") ++
  (if present_after_trim condition
   then py " Focus on capturing " ++ condition ++ py "." else []) ++
  (if present_after_trim details
   then py " Include details such as " ++ details ++ py "." else []) ++
  closing_sentence.

(* ================================================================== *)
(** ** Python dictionaries with string keys

    Insertion-ordered: assigning to a new key appends it, assigning to an
    existing key replaces the value where the key already stands. *)

Definition pydict (V : Type) : Type := list (pystr * V).

Fixpoint dict_get (V : Type) (d : pydict V) (k : pystr) : option V :=
  match d with
  | [] => None
  | (k', v) :: rest => if str_eqb k k' then Some v else dict_get rest k
  end.

Fixpoint dict_set (V : Type) (d : pydict V) (k : pystr) (v : V) : pydict V :=
  match d with
  | [] => [(k, v)]
  | (k', v') :: rest =>
      if str_eqb k k' then (k', v) :: rest else (k', v') :: dict_set rest k v
  end.

Definition dict_keys (V : Type) (d : pydict V) : list pystr := map fst d.
Definition dict_values (V : Type) (d : pydict V) : list V := map snd d.
Definition dict_items (V : Type) (d : pydict V) : list (pystr * V) := d.

(** [{k1: v1, k2: v2, ...}] *)
Definition dict_literal (V : Type) (entries : list (pystr * V)) : pydict V :=
  fold_left (fun d kv => dict_set d (fst kv) (snd kv)) entries [].

(** [{name: f(name, value) for name, value in src.items()}] *)
Definition dict_comprehension (U V : Type) (f : pystr -> U -> V)
    (src : pydict U) : pydict V :=
  fold_left (fun d kv => dict_set d (fst kv) (f (fst kv) (snd kv)))
            (dict_items src) [].

(** Keys pairwise distinct, as a check that computes. *)
Fixpoint distinct (keys : list pystr) : bool :=
  match keys with
  | [] => true
  | k :: rest => negb (existsb (str_eqb k) rest) && distinct rest
  end.

(* ================================================================== *)
(** ** The registry (lines 5-8) *)

Definition models : pydict pystr :=
  dict_literal
    [ (py "DistilGPT-2", py "distilgpt2");
      (py "GPT-Neo-125M", py "EleutherAI/gpt-neo-125M") ].

(* ================================================================== *)
(** ** Tokenizers, exceptions and the external backend *)

(** The attributes of a loaded tokenizer the script reads or writes. *)
Record tokenizer : Type := {
  name_or_path : pystr;
  pad_token : option pystr;
  eos_token : option pystr
}.

Inductive exn : Type :=
| KeyError (key : pystr)              (* d[k] on a missing key *)
| ValueError_empty_max                (* max() of an empty iterable *)
| TypeError_compare                   (* [>] between None and int *)
| Raised (message : pystr)            (* raised inside the backend; str(e) *)
| RaisedBaseException (message : pystr).
                                      (* raised inside the backend, outside the
                                         Exception class: KeyboardInterrupt,
                                         SystemExit, GeneratorExit *)

(** [isinstance(e, Exception)]: what [except Exception] catches. *)
Definition is_Exception (e : exn) : bool :=
  match e with
  | RaisedBaseException _ => false
  | KeyError _ | ValueError_empty_max | TypeError_compare | Raised _ => true
  end.

(** What the script takes from [transformers]: loading a tokenizer, and the
    tokenize / generate / decode chain of lines 27-38, which samples and so
    reads and advances a hidden sampler state, and which may raise. *)
Class Backend : Type := {
  rng : Type;
  from_pretrained : pystr -> tokenizer;
  run_model : tokenizer -> pystr -> pystr -> Z -> rng -> (exn + pystr) * rng
}.

(** Ghost events: every evaluation of the template block and every call of
    the backend, in program order. *)
Inductive event : Type :=
| Templated (instruction : pystr)
| Invoked (model_name instruction : pystr) (max_length : Z).

Record world {B : Backend} : Type := {
  sampler : rng;
  log : list event
}.

(** Computations of the [try] body: they read and write the world and either
    return or raise. *)
Definition M {B : Backend} (A : Type) : Type := world -> (exn + A) * world.

Definition ret {B : Backend} (A : Type) (a : A) : M A := fun w => (inr a, w).

Definition raise {B : Backend} (A : Type) (e : exn) : M A := fun w => (inl e, w).

Definition bind {B : Backend} (A C : Type) (m : M A) (k : A -> M C) : M C :=
  fun w =>
    match m w with
    | (inl e, w') => (inl e, w')
    | (inr a, w') => k a w'
    end.

Notation "x <- m ;; k" := (bind m (fun x => k))
  (at level 61, m at next level, right associativity).
Notation "m ;;; k" := (bind m (fun _ => k))
  (at level 61, right associativity).

Definition emit {B : Backend} (e : event) : M unit :=
  fun w => (inr tt, {| sampler := sampler w; log := log w ++ [e] |}).

Definition lift {B : Backend} (A : Type) (r : exn + A) : M A :=
  fun w => (r, w).

(** [d[k]] *)
Definition subscript {B : Backend} (V : Type) (d : pydict V) (k : pystr) : M V :=
  match dict_get d k with
  | Some v => ret v
  | None => raise V (KeyError k)
  end.

(** Lines 27-38. *)
Definition call_backend {B : Backend} (tok : tokenizer) (model : pystr)
    (instruction : pystr) (max_length : Z) : M pystr :=
  fun w =>
    let (r, s') := run_model tok model instruction max_length (sampler w) in
    (r, {| sampler := s'; log := log w |}).

(* ================================================================== *)
(** ** Start-up (lines 10-15) *)

Definition load_tokenizers {B : Backend} (registry : pydict pystr) : pydict tokenizer :=
  dict_comprehension (fun _ model_path => from_pretrained model_path) registry.

(** Lines 13-14, on one tokenizer object. *)
Definition ensure_pad_token (t : tokenizer) : tokenizer :=
  match pad_token t with
  | None => {| name_or_path := name_or_path t;
               pad_token := eos_token t;
               eos_token := eos_token t |}
  | Some _ => t
  end.

(** Lines 12-14: the loop over [model_tokenizers.values()] updates every
    tokenizer object where it is stored. *)
Definition ensure_pad_tokens (d : pydict tokenizer) : pydict tokenizer :=
  map (fun kv => (fst kv, ensure_pad_token (snd kv))) d.

Definition model_tokenizers {B : Backend} (registry : pydict pystr) : pydict tokenizer :=
  ensure_pad_tokens (load_tokenizers registry).

(** The loaded model is identified by the path it was loaded from. *)
Definition model_objects (registry : pydict pystr) : pydict pystr :=
  dict_comprehension (fun _ model_path => model_path) registry.

(* ================================================================== *)
(** ** [generate_prompt_with_model] (lines 17-39) *)

Definition generate_prompt_with_model {B : Backend}
    (tokenizers : pydict tokenizer) (objects : pydict pystr)
    (model_name description modality condition details : pystr)
    (max_length : Z) : M pystr :=
  let instruction := base_prompt description modality condition details in
  emit (Templated instruction) ;;;
  tokenizer <- subscript tokenizers model_name ;;
  model <- subscript objects model_name ;;
  emit (Invoked model_name instruction max_length) ;;;
  generated_text <- call_backend tokenizer model instruction max_length ;;
  ret (strip generated_text).

(* ================================================================== *)
(** ** The comparison (lines 66-116) *)

(** The four accumulators of lines 67-70. *)
Record accumulators : Type := {
  results : pydict pystr;
  model_scores : pydict Z;
  length_scores : list Z;
  clarity_scores : list Z
}.

Definition empty_accumulators : accumulators :=
  {| results := []; model_scores := []; length_scores := [];
     clarity_scores := [] |}.

(** Lines 72-78: the loop over [models.keys()]. *)
Fixpoint generation_loop {B : Backend}
    (tokenizers : pydict tokenizer) (objects : pydict pystr)
    (names : list pystr) (description modality condition details : pystr)
    (max_length : Z) (acc : accumulators) : M accumulators :=
  match names with
  | [] => ret acc
  | model_name :: rest =>
      output <- generate_prompt_with_model tokenizers objects model_name
                  description modality condition details max_length ;;
      let '(length_score, clarity_score, final_score) := evaluate_prompt output in
      generation_loop tokenizers objects rest
        description modality condition details max_length
        {| results := dict_set (results acc) model_name output;
           model_scores := dict_set (model_scores acc) model_name final_score;
           length_scores := length_scores acc ++ [length_score];
           clarity_scores := clarity_scores acc ++ [clarity_score] |}
  end.

(** [a > b] on what [dict.get] returns. *)
Definition py_gt (a b : option Z) : exn + bool :=
  match a, b with
  | Some x, Some y => inr (x >? y)%Z
  | _, _ => inl TypeError_compare
  end.

(** The scan of [max(iterable, key=...)]: the running maximum is replaced
    only by an item whose key is strictly greater. *)
Fixpoint max_scan (key : pystr -> option Z) (best : pystr)
    (best_key : option Z) (rest : list pystr) : exn + pystr :=
  match rest with
  | [] => inr best
  | item :: rest' =>
      match py_gt (key item) best_key with
      | inl e => inl e
      | inr true => max_scan key item (key item) rest'
      | inr false => max_scan key best best_key rest'
      end
  end.

Definition py_max (items : list pystr) (key : pystr -> option Z) : exn + pystr :=
  match items with
  | [] => inl ValueError_empty_max
  | first :: rest => max_scan key first (key first) rest
  end.

(** Lines 111-116. *)
Definition comment (final_score : Z) : string :=
  if (final_score <? 150)%Z then
    "**Comment:** The generated prompt could be improved by making it more specific and detailed."
  else if ((final_score >=? 150) && (final_score <? 200))%Z then
    "**Comment:** The prompt is fairly descriptive, but it could benefit from additional details."
  else
    "**Comment:** The prompt is well-structured and highly descriptive.".

(** One block of lines 102-116. *)
Record metrics : Type := {
  metrics_model : pystr;
  metrics_length : Z;
  metrics_clarity : Z;
  metrics_final : Z;
  metrics_first_words : pystr;
  metrics_comment : string
}.

Definition metrics_of (item : pystr * pystr) : metrics :=
  let (model_name, output) := item in
  let '(length_score, clarity_score, final_score) := evaluate_prompt output in
  {| metrics_model := model_name;
     metrics_length := length_score;
     metrics_clarity := clarity_score;
     metrics_final := final_score;
     metrics_first_words := join_space (firstn 10 (split output));
     metrics_comment := comment final_score |}.

(** Everything a successful run puts on the page. *)
Record comparison : Type := {
  generated : pydict pystr;          (* results *)
  scores : pydict Z;                 (* model_scores *)
  best_model : pystr;
  best_prompt : pystr;
  chart_models : list pystr;
  chart_length_scores : list Z;
  chart_clarity_scores : list Z;
  report : list metrics
}.

(** The body of the [try] block, for a registry and its loaded backends. *)
Definition compare_with {B : Backend} (registry : pydict pystr)
    (tokenizers : pydict tokenizer) (objects : pydict pystr)
    (description modality condition details : pystr) (max_length : Z)
    : M comparison :=
  acc <- generation_loop tokenizers objects (dict_keys registry)
           description modality condition details max_length
           empty_accumulators ;;
  best_model <- lift (py_max (dict_keys (model_scores acc))
                             (dict_get (model_scores acc))) ;;
  best_prompt <- subscript (results acc) best_model ;;
  ret {| generated := results acc;
         scores := model_scores acc;
         best_model := best_model;
         best_prompt := best_prompt;
         chart_models := dict_keys registry;
         chart_length_scores := length_scores acc;
         chart_clarity_scores := clarity_scores acc;
         report := map metrics_of (dict_items (results acc)) |}.

(** The comparison over a registry as the script sets it up at start. *)
Definition compare_over {B : Backend} (registry : pydict pystr)
    (description modality condition details : pystr) (max_length : Z)
    : M comparison :=
  compare_with registry (model_tokenizers registry) (model_objects registry)
    description modality condition details max_length.

(** The script's comparison: over [models]. *)
Definition compare {B : Backend}
    (description modality condition details : pystr) (max_length : Z)
    : M comparison :=
  compare_over models description modality condition details max_length.

(** What the button handler leaves on the page: the results, or the banner
    of [st.error(f"Error: {e}")], or neither when the exception is not an
    [Exception] and so passes through the [except Exception] clause. *)
Inductive page : Type :=
| Rendered (c : comparison)
| ErrorBanner (e : exn)
| Uncaught (e : exn).

(** Line 117-118 on a raised exception. *)
Definition surfaced (e : exn) : page :=
  if is_Exception e then ErrorBanner e else Uncaught e.

Definition on_generate_prompts {B : Backend}
    (description modality condition details : pystr) (max_length : Z)
    (w : world) : page * world :=
  match compare description modality condition details max_length w with
  | (inr c, w') => (Rendered c, w')
  | (inl e, w') => (surfaced e, w')
  end.

(** Reading the ghost log. *)
Definition invoked_models (events : list event) : list pystr :=
  flat_map (fun e => match e with
                     | Invoked model_name _ _ => [model_name]
                     | Templated _ => []
                     end) events.

Definition invoked_instructions (events : list event) : list pystr :=
  flat_map (fun e => match e with
                     | Invoked _ instruction _ => [instruction]
                     | Templated _ => []
                     end) events.

Definition template_evaluations (events : list event) : list pystr :=
  flat_map (fun e => match e with
                     | Templated instruction => [instruction]
                     | Invoked _ _ _ => []
                     end) events.

(** The final score recorded for a model, 0 when there is none. *)
Definition score_of (c : comparison) (model_name : pystr) : Z :=
  match dict_get (scores c) model_name with
  | Some v => v
  | None => 0%Z
  end.

(* ================================================================== *)
(** ** Sample backends, to run the model on *)

Definition gpt_tokenizer (path : pystr) : tokenizer :=
  {| name_or_path := path; pad_token := None;
     eos_token := Some (py "<|endoftext|>") |}.

(** Every model returns the instruction it was given; the sampler state
    counts the calls. *)
Definition echo_backend : Backend :=
  {| rng := nat;
     from_pretrained := gpt_tokenizer;
     run_model := fun _ _ instruction _ s => (inr instruction, S s) |}.

(** GPT-Neo continues the instruction by a few words, DistilGPT-2 does not. *)
Definition neo_continues_backend : Backend :=
  {| rng := nat;
     from_pretrained := gpt_tokenizer;
     run_model := fun _ model instruction _ s =>
       if str_eqb model (py "EleutherAI/gpt-neo-125M")
       then (inr (instruction ++ py " Display axial slices with contrast. "), S s)
       else (inr instruction, S s) |}.

(** The backend of one model is down and raises; the other echoes. *)
Definition down_backend (broken_path : pystr) : Backend :=
  {| rng := nat;
     from_pretrained := gpt_tokenizer;
     run_model := fun _ model instruction _ s =>
       if str_eqb model broken_path
       then (inl (Raised (py "backend unavailable")), s)
       else (inr instruction, S s) |}.

(** The run is interrupted while one model generates; the other echoes. *)
Definition interrupted_backend (interrupted_path : pystr) : Backend :=
  {| rng := nat;
     from_pretrained := gpt_tokenizer;
     run_model := fun _ model instruction _ s =>
       if str_eqb model interrupted_path
       then (inl (RaisedBaseException (py "KeyboardInterrupt")), s)
       else (inr instruction, S s) |}.

(** Every model answers with a fixed text padded by whitespace. *)
Definition padded_backend : Backend :=
  {| rng := nat;
     from_pretrained := gpt_tokenizer;
     run_model := fun _ _ _ _ s =>
       (inr (py "  Generate a CT scan of lungs. "), S s) |}.

Definition fresh_world {B : Backend} (seed : rng) : world :=
  {| sampler := seed; log := [] |}.

(* ================================================================== *)
(** ** Predicates the theorems are stated with *)

(** [k] comes first among the keys with the largest value of [d]. *)
Definition first_maximum (d : pydict Z) (k : pystr) : Prop :=
  exists before after v,
    dict_keys d = before ++ k :: after /\
    dict_get d k = Some v /\
    (forall k', In k' before -> exists u, dict_get d k' = Some u /\ (u < v)%Z) /\
    (forall k', In k' after -> exists u, dict_get d k' = Some u /\ (u <= v)%Z).

(** The result holds one entry per name of [names], in that order, each
    scored by [evaluate_prompt] on its text, and the best model is the first
    maximum of the final scores. *)
Definition ranked (names : list pystr) (c : comparison) : Prop :=
  NoDup names /\
  dict_keys (generated c) = names /\
  dict_keys (scores c) = names /\
  map metrics_model (report c) = names /\
  List.length (report c) = List.length names /\
  (forall k, In k names ->
     exists text,
       dict_get (generated c) k = Some text /\
       dict_get (scores c) k = Some (final_score_of text) /\
       In {| metrics_model := k;
             metrics_length := length_score_of text;
             metrics_clarity := clarity_score_of text;
             metrics_final := final_score_of text;
             metrics_first_words := join_space (firstn 10 (split text));
             metrics_comment := comment (final_score_of text) |} (report c)) /\
  In (best_model c) names /\
  (forall k, In k names -> (score_of c k <= score_of c (best_model c))%Z) /\
  first_maximum (scores c) (best_model c) /\
  dict_get (generated c) (best_model c) = Some (best_prompt c).

(** The exception [e] came out of the backend call made for the registered
    model [k] with the instruction built from the fields. *)
Definition raised_by {B : Backend} (registry : pydict pystr)
    (description modality condition details : pystr) (max_length : Z)
    (k : pystr) (e : exn) : Prop :=
  exists tok path s,
    dict_get (model_tokenizers registry) k = Some tok /\
    dict_get registry k = Some path /\
    fst (run_model tok path
           (base_prompt description modality condition details)
           max_length s) = inl e.

(** The text [text] is what the backend call made for the registered model
    [k] returned, stripped. *)
Definition generated_by {B : Backend} (registry : pydict pystr)
    (description modality condition details : pystr) (max_length : Z)
    (k : pystr) (text : pystr) : Prop :=
  exists tok path s raw,
    dict_get (model_tokenizers registry) k = Some tok /\
    dict_get registry k = Some path /\
    fst (run_model tok path
           (base_prompt description modality condition details)
           max_length s) = inr raw /\
    text = strip raw.

(** What the script puts on the page when DistilGPT-2 generated [text_d]
    and GPT-Neo generated [text_n]. *)
Definition two_model_result (text_d text_n : pystr) : comparison :=
  {| generated := [(py "DistilGPT-2", text_d); (py "GPT-Neo-125M", text_n)];
     scores := [(py "DistilGPT-2", final_score_of text_d);
                (py "GPT-Neo-125M", final_score_of text_n)];
     best_model :=
       if (final_score_of text_n >? final_score_of text_d)%Z
       then py "GPT-Neo-125M" else py "DistilGPT-2";
     best_prompt :=
       if (final_score_of text_n >? final_score_of text_d)%Z
       then text_n else text_d;
     chart_models := [py "DistilGPT-2"; py "GPT-Neo-125M"];
     chart_length_scores := [length_score_of text_d; length_score_of text_n];
     chart_clarity_scores := [clarity_score_of text_d; clarity_score_of text_n];
     report := [metrics_of (py "DistilGPT-2", text_d);
                metrics_of (py "GPT-Neo-125M", text_n)] |}.

(** The events one pass of the loop body adds for each of [names]. *)
Definition loop_events (names : list pystr) (instruction : pystr)
    (max_length : Z) : list event :=
  flat_map (fun k => [Templated instruction; Invoked k instruction max_length])
           names.

(** Texts made of whitespace only (the empty text included), and texts
    without any whitespace. *)
Definition all_space (s : pystr) : bool := forallb isspace s.

Definition no_space (s : pystr) : bool := forallb (fun c => negb (isspace c)) s.

(** A word as [str.split()] produces them: not empty, no whitespace. *)
Definition is_word (w : pystr) : Prop := w <> [] /\ no_space w = true.

(* ================================================================== *)
(** * Properties *)

(** ** Strings and dictionaries *)

Lemma str_eqb_eq (a b : pystr) : str_eqb a b = true <-> a = b.
Proof.
  revert b; induction a as [|x a IH]; intros [|y b]; simpl;
    try (split; [discriminate | discriminate]); try tauto.
  rewrite andb_true_iff, N.eqb_eq, IH.
  split; [intros [-> ->]; reflexivity | intros H; inversion H; auto].
Qed.

Lemma str_eqb_refl (a : pystr) : str_eqb a a = true.
Proof. apply str_eqb_eq; reflexivity. Qed.

Lemma str_eqb_neq (a b : pystr) : str_eqb a b = false <-> a <> b.
Proof.
  rewrite <- str_eqb_eq. destruct (str_eqb a b); split; congruence.
Qed.

Lemma existsb_str_eqb (k : pystr) (l : list pystr) :
  existsb (str_eqb k) l = true <-> In k l.
Proof.
  rewrite existsb_exists. split.
  - intros [x [Hin Hx]]. apply str_eqb_eq in Hx. subst; assumption.
  - intros Hin. exists k. split; [assumption | apply str_eqb_refl].
Qed.

Lemma distinct_NoDup (l : list pystr) : distinct l = true <-> NoDup l.
Proof.
  induction l as [|k l IH]; simpl.
  - split; [constructor | reflexivity].
  - rewrite andb_true_iff, negb_true_iff, IH. split.
    + intros [Hk Hl]. constructor; [|assumption].
      intros Hin. apply existsb_str_eqb in Hin. congruence.
    + intros H. inversion H as [|? ? Hk Hl]; subst. split; [|assumption].
      destruct (existsb (str_eqb k) l) eqn:E; [|reflexivity].
      apply existsb_str_eqb in E. contradiction.
Qed.

Section Dictionaries.
Variable V : Type.
Implicit Types (d : pydict V) (k : pystr) (v : V).

Lemma dict_set_fresh d k v :
  ~ In k (dict_keys d) -> dict_set d k v = d ++ [(k, v)].
Proof.
  induction d as [|[k' v'] d IH]; simpl; intros Hk; [reflexivity|].
  destruct (str_eqb k k') eqn:E.
  - apply str_eqb_eq in E. subst. tauto.
  - rewrite IH; [reflexivity | tauto].
Qed.

Lemma dict_keys_set_present d k v :
  In k (dict_keys d) -> dict_keys (dict_set d k v) = dict_keys d.
Proof.
  induction d as [|[k' v'] d IH]; simpl; intros Hk; [contradiction|].
  destruct (str_eqb k k') eqn:E; simpl; [reflexivity|].
  apply str_eqb_neq in E. f_equal. apply IH.
  destruct Hk as [Hk|Hk]; [congruence | assumption].
Qed.

Lemma dict_keys_app d d' : dict_keys (d ++ d') = dict_keys d ++ dict_keys d'.
Proof. apply map_app. Qed.

Lemma dict_set_keys_NoDup d k v :
  NoDup (dict_keys d) -> NoDup (dict_keys (dict_set d k v)).
Proof.
  intros Hd. destruct (in_dec (list_eq_dec N.eq_dec) k (dict_keys d)) as [Hin|Hout].
  - rewrite dict_keys_set_present; assumption.
  - rewrite dict_set_fresh, dict_keys_app by assumption. simpl.
    apply NoDup_app; [assumption | repeat constructor; simpl; tauto |].
    intros x Hx [<-|[]]. contradiction.
Qed.

Lemma dict_literal_keys_NoDup (entries : list (pystr * V)) :
  NoDup (dict_keys (dict_literal entries)).
Proof.
  unfold dict_literal.
  assert (G : forall d, NoDup (dict_keys d) ->
    NoDup (dict_keys (fold_left (fun d kv => dict_set d (fst kv) (snd kv)) entries d))).
  { induction entries as [|kv entries IH]; simpl; intros d Hd; [assumption|].
    apply IH, dict_set_keys_NoDup, Hd. }
  apply G. constructor.
Qed.

Lemma dict_get_In d k v :
  NoDup (dict_keys d) -> In (k, v) d -> dict_get d k = Some v.
Proof.
  induction d as [|[k' v'] d IH]; simpl; intros Hd Hin; [contradiction|].
  inversion Hd as [|? ? Hk Hd']; subst.
  destruct Hin as [Heq|Hin].
  - inversion Heq; subst. rewrite str_eqb_refl. reflexivity.
  - destruct (str_eqb k k') eqn:E.
    + apply str_eqb_eq in E. subst. exfalso. apply Hk.
      change k' with (fst (k', v)). apply in_map. assumption.
    + apply IH; assumption.
Qed.

Lemma dict_get_Some_In d k v : dict_get d k = Some v -> In (k, v) d.
Proof.
  induction d as [|[k' v'] d IH]; simpl; [discriminate|].
  destruct (str_eqb k k') eqn:E.
  - apply str_eqb_eq in E. subst. intros H; inversion H. left; reflexivity.
  - intros H. right. apply IH, H.
Qed.

Lemma dict_get_key d k : In k (dict_keys d) -> exists v, dict_get d k = Some v.
Proof.
  induction d as [|[k' v'] d IH]; simpl; [contradiction|].
  destruct (str_eqb k k') eqn:E; [eexists; reflexivity|].
  apply str_eqb_neq in E. intros [H|H]; [congruence | apply IH, H].
Qed.

Lemma dict_get_None d k : ~ In k (dict_keys d) -> dict_get d k = None.
Proof.
  induction d as [|[k' v'] d IH]; simpl; intros H; [reflexivity|].
  destruct (str_eqb k k') eqn:E.
  - apply str_eqb_eq in E. subst. tauto.
  - apply IH. tauto.
Qed.

Lemma dict_keys_combine (names : list pystr) (vals : list V) :
  List.length vals = List.length names -> dict_keys (combine names vals) = names.
Proof.
  revert vals; induction names as [|n names IH]; intros [|v vals]; simpl;
    intros H; try reflexivity; try discriminate.
  f_equal. apply IH. lia.
Qed.

Lemma dict_get_combine (names : list pystr) (vals : list V) k :
  NoDup names -> List.length vals = List.length names -> In k names ->
  exists v, dict_get (combine names vals) k = Some v /\ In (k, v) (combine names vals).
Proof.
  intros Hnd Hlen Hin.
  assert (Hk : In k (dict_keys (combine names vals))).
  { rewrite dict_keys_combine; assumption. }
  destruct (dict_get_key _ _ Hk) as [v Hv]. exists v. split; [assumption|].
  apply dict_get_Some_In, Hv.
Qed.
End Dictionaries.

Lemma dict_comprehension_map (U V : Type) (f : pystr -> U -> V) (src : pydict U) :
  NoDup (dict_keys src) ->
  dict_comprehension f src = map (fun kv => (fst kv, f (fst kv) (snd kv))) src.
Proof.
  unfold dict_comprehension, dict_items.
  assert (G : forall (d : pydict V),
    NoDup (dict_keys d ++ dict_keys src) ->
    fold_left (fun d kv => dict_set d (fst kv) (f (fst kv) (snd kv))) src d =
    d ++ map (fun kv => (fst kv, f (fst kv) (snd kv))) src).
  { induction src as [|[k u] src IH]; simpl; intros d Hd.
    - rewrite app_nil_r. reflexivity.
    - assert (Hk : ~ In k (dict_keys d)).
      { intros Hin. apply NoDup_remove_2 in Hd. apply Hd.
        apply in_or_app. left. assumption. }
      rewrite dict_set_fresh by assumption.
      rewrite IH.
      + rewrite <- app_assoc. reflexivity.
      + rewrite dict_keys_app. simpl. rewrite <- app_assoc. simpl. assumption. }
  intros Hs. apply (G []). simpl. assumption.
Qed.

(* ================================================================== *)
(** ** Scoring *)

Lemma split_from_tokens (s word : pystr) :
  split_from word s =
  match word with
  | [] => tokens_from true s
  | _ :: _ => (word ++ take_word s) :: tokens_from false s
  end.
Proof.
  revert word; induction s as [|c rest IH]; intros word; simpl.
  - destruct word; simpl; [reflexivity | rewrite app_nil_r; reflexivity].
  - destruct (isspace c) eqn:Hc.
    + rewrite (IH []). destruct word; simpl; [reflexivity|].
      rewrite app_nil_r. reflexivity.
    + rewrite (IH (word ++ [c])).
      destruct word as [|x word]; simpl; [reflexivity|].
      destruct (word ++ [c]) eqn:E.
      * destruct word; discriminate.
      * rewrite <- E, <- app_assoc. reflexivity.
Qed.

(** [str.split()] returns the whitespace-delimited tokens. *)
Lemma split_tokens (s : pystr) : split s = whitespace_delimited_tokens s.
Proof. unfold split. rewrite split_from_tokens. reflexivity. Qed.

Lemma take_word_no_space (s : pystr) : forallb (fun c => negb (isspace c)) (take_word s) = true.
Proof.
  induction s as [|c rest IH]; simpl; [reflexivity|].
  destruct (isspace c) eqn:Hc; simpl; [reflexivity|].
  rewrite Hc, IH. reflexivity.
Qed.

(** A token is not empty and holds no whitespace character. *)
Lemma tokens_from_shape (s : pystr) (b : bool) (t : pystr) :
  In t (tokens_from b s) ->
  t <> [] /\ forallb (fun c => negb (isspace c)) t = true.
Proof.
  revert b; induction s as [|c rest IH]; intros b; simpl; [contradiction|].
  destruct (isspace c) eqn:Hc.
  - apply IH.
  - intros Hin. apply in_app_or in Hin. destruct Hin as [Hin|Hin].
    + destruct b; [|contradiction]. destruct Hin as [<-|[]].
      split; [discriminate|]. simpl. rewrite Hc. simpl. apply take_word_no_space.
    + apply (IH false), Hin.
Qed.

(** The tokens, put end to end, are the text without its whitespace. *)
Lemma tokens_from_concat (s : pystr) :
  concat (tokens_from true s) = filter (fun c => negb (isspace c)) s.
Proof.
  assert (G : forall s,
    concat (tokens_from true s) = filter (fun c => negb (isspace c)) s /\
    take_word s ++ concat (tokens_from false s) = filter (fun c => negb (isspace c)) s).
  { clear s. induction s as [|c rest [IH1 IH2]]; simpl; [split; reflexivity|].
    destruct (isspace c) eqn:Hc; simpl.
    - split; assumption.
    - rewrite IH2. split; reflexivity. }
  apply G.
Qed.

Lemma long_word_test (word : pystr) :
  (len word >? 3)%Z = (3 <? List.length word)%nat.
Proof.
  unfold len. destruct (3 <? List.length word)%nat eqn:E.
  - apply Nat.ltb_lt in E. apply Z.gtb_lt. lia.
  - apply Nat.ltb_ge in E. rewrite Z.gtb_ltb. apply Z.ltb_ge. lia.
Qed.

Lemma filter_shorter (A : Type) (f : A -> bool) (l : list A) :
  (List.length (filter f l) <= List.length l)%nat.
Proof.
  induction l as [|x l IH]; simpl; [lia|]. destruct (f x); simpl; lia.
Qed.

Example evaluate_quick_fox :
  evaluate_prompt (py "The quick fox") = (3, 1, 4)%Z.
Proof. reflexivity. Qed.

Example split_skips_whitespace_runs :
  split (py "  axial   T2 slices ") = [py "axial"; py "T2"; py "slices"].
Proof. reflexivity. Qed.

(** C3. [evaluate_prompt] is a total function of the text.  Its length score
    is the number of whitespace-delimited tokens of the text, its clarity
    score is the number of those tokens that have more than 3 characters,
    and its final score is the sum of the two.  On the empty string all
    three scores are 0. *)
Theorem evaluate_prompt_counts_tokens :
  forall text : pystr,
    let tokens := whitespace_delimited_tokens text in
    let long := filter (fun t => (3 <? List.length t)%nat) tokens in
    evaluate_prompt text =
      (Z.of_nat (List.length tokens),
       Z.of_nat (List.length long),
       (Z.of_nat (List.length tokens) + Z.of_nat (List.length long))%Z) /\
    evaluate_prompt [] = (0, 0, 0)%Z.
Proof.
  intros text tokens long. split; [|reflexivity].
  unfold evaluate_prompt, len. rewrite split_tokens. fold tokens.
  assert (E : filter (fun word => (Z.of_nat (List.length word) >? 3)%Z) tokens = long).
  { unfold long. apply filter_ext. intros w. apply (long_word_test w). }
  rewrite E. reflexivity.
Qed.

(** C9. For every text the clarity score lies between 0 and the length
    score, and the final score between the length score and twice the
    length score. *)
Theorem evaluate_prompt_score_bounds :
  forall text : pystr,
    (0 <= clarity_score_of text <= length_score_of text)%Z /\
    (length_score_of text <= final_score_of text <= 2 * length_score_of text)%Z.
Proof.
  intros text.
  unfold clarity_score_of, length_score_of, final_score_of, evaluate_prompt, len.
  cbn [fst snd].
  match goal with
  | |- context [Z.of_nat (List.length (filter ?f ?l))] =>
      pose proof (filter_shorter f l) as H;
      set (a := List.length (filter f l)) in *;
      set (b := List.length l) in *
  end.
  assert (Hab : (a <= b)%nat) by exact H.
  clearbody a b. lia.
Qed.

(* ================================================================== *)
(** ** The instruction template *)

Lemma truthy_nonempty (s : pystr) : truthy s = true <-> s <> [].
Proof. destruct s; simpl; split; congruence. Qed.

Lemma lstrip_nonempty (s : pystr) : lstrip s <> [] -> s <> [].
Proof. destruct s; simpl; congruence. Qed.

Lemma strip_nonempty (s : pystr) : strip s <> [] -> s <> [].
Proof.
  unfold strip, rstrip. intros H. apply lstrip_nonempty. intros E.
  apply H. rewrite E. reflexivity.
Qed.

Lemma present_after_trim_truthy (s : pystr) :
  present_after_trim s = true -> truthy s = true.
Proof.
  unfold present_after_trim. rewrite !truthy_nonempty. apply strip_nonempty.
Qed.

Lemma base_prompt_shape (description modality condition details : pystr) :
  base_prompt description modality condition details =
    (py "Generate a " ++ modality ++ py " scan of " ++ description ++
     py ". Focus on the medical imaging context only.") ++
    (if truthy condition
     then py " Focus on capturing " ++ condition ++ py "." else []) ++
    (if truthy details
     then py " Include details such as " ++ details ++ py "." else []) ++
    closing_sentence.
Proof.
  unfold base_prompt.
  destruct (truthy condition), (truthy details);
    repeat rewrite <- app_assoc; repeat rewrite app_nil_l; reflexivity.
Qed.

(** C2. The instruction is the base sentence with the modality and the
    description, then the condition fragment if there is one, then the
    details fragment if there is one, then the closing sentence, in that
    order.  For the description "human brain", the modality "MRI" and empty
    condition and details it is exactly the base sentence followed by the
    closing sentence. *)
Theorem base_prompt_four_steps :
  (forall description modality condition details : pystr,
     base_prompt description modality condition details =
       (py "Generate a " ++ modality ++ py " scan of " ++ description ++
        py ". Focus on the medical imaging context only.") ++
       (if truthy condition
        then py " Focus on capturing " ++ condition ++ py "." else []) ++
       (if truthy details
        then py " Include details such as " ++ details ++ py "." else []) ++
       py " Avoid any extra information, references, or irrelevant content. Keep the prompt focused only on the image generation task.") /\
  base_prompt (py "human brain") (py "MRI") [] [] =
    py "Generate a MRI scan of human brain. Focus on the medical imaging context only. Avoid any extra information, references, or irrelevant content. Keep the prompt focused only on the image generation task.".
Proof.
  split; [|reflexivity].
  intros description modality condition details.
  apply base_prompt_shape.
Qed.

Lemma app_same_prefix_length (A : Type) (p x y : list A) :
  p ++ x = p ++ y -> List.length x = List.length y.
Proof. intros H. apply app_inv_head in H. congruence. Qed.


Lemma base_prompt_without_condition (description modality condition details : pystr) :
  base_prompt description modality condition details =
  base_prompt description modality [] details <-> condition = [].
Proof.
  split; [|intros ->; reflexivity].
  rewrite !base_prompt_shape. intros H.
  apply app_same_prefix_length in H. simpl in H.
  destruct condition as [|c condition]; [reflexivity|]. exfalso.
  simpl in H. repeat rewrite length_app in H. simpl in H. lia.
Qed.

Lemma base_prompt_without_details (description modality condition details : pystr) :
  base_prompt description modality condition details =
  base_prompt description modality condition [] <-> details = [].
Proof.
  split; [|intros ->; reflexivity].
  rewrite !base_prompt_shape. intros H.
  apply app_same_prefix_length in H.
  repeat rewrite length_app in H. simpl in H.
  destruct details as [|c details]; [reflexivity|]. exfalso.
  simpl in H. repeat rewrite length_app in H. simpl in H. lia.
Qed.

(** C4, as the specification states it, fails: a condition made of one
    space is whitespace only, yet its fragment is in the instruction. *)
Lemma whitespace_condition_keeps_fragment :
  strip (py " ") = [] /\
  base_prompt (py "human brain") (py "MRI") (py " ") [] =
    py "Generate a MRI scan of human brain. Focus on the medical imaging context only. Focus on capturing  . Avoid any extra information, references, or irrelevant content. Keep the prompt focused only on the image generation task." /\
  base_prompt (py "human brain") (py "MRI") (py " ") [] <>
    build_as_specified (py "human brain") (py "MRI") (py " ") [].
Proof.
  split; [reflexivity|]. split; [reflexivity|].
  vm_compute. discriminate.
Qed.

(** C4, amended.  An optional fragment is left out exactly when its field is
    the empty string; the field is not trimmed.  A non-empty condition, made
    of whitespace or not, puts its fragment right after the base sentence,
    and a non-empty details field puts its fragment right before the closing
    sentence.  The instruction is the one the specification describes
    whenever each optional field is empty or has a non-whitespace
    character. *)
Theorem optional_fragments_follow_emptiness :
  forall description modality condition details : pystr,
    let base := py "Generate a " ++ modality ++ py " scan of " ++ description ++
                py ". Focus on the medical imaging context only." in
    (base_prompt description modality condition details =
     base_prompt description modality [] details <-> condition = []) /\
    (base_prompt description modality condition details =
     base_prompt description modality condition [] <-> details = []) /\
    (condition <> [] ->
       exists rest,
         base_prompt description modality condition details =
         base ++ (py " Focus on capturing " ++ condition ++ py ".") ++ rest) /\
    (details <> [] ->
       exists front,
         base_prompt description modality condition details =
         front ++ (py " Include details such as " ++ details ++ py ".") ++
         closing_sentence) /\
    ((condition = [] \/ strip condition <> []) ->
     (details = [] \/ strip details <> []) ->
       base_prompt description modality condition details =
       build_as_specified description modality condition details).
Proof.
  intros description modality condition details base.
  split; [apply base_prompt_without_condition|].
  split; [apply base_prompt_without_details|].
  split; [|split].
  - intros Hc. apply truthy_nonempty in Hc.
    rewrite base_prompt_shape, Hc. fold base. eexists. reflexivity.
  - intros Hd. apply truthy_nonempty in Hd.
    rewrite base_prompt_shape, Hd. fold base.
    exists (base ++ (if truthy condition
                     then py " Focus on capturing " ++ condition ++ py "."
                     else [])).
    repeat rewrite <- app_assoc. reflexivity.
  - intros Hc Hd. rewrite base_prompt_shape. unfold build_as_specified.
    assert (E : forall s, s = [] \/ strip s <> [] ->
                          present_after_trim s = truthy s).
    { intros s [->|Hs]; [reflexivity|].
      assert (Hp : present_after_trim s = true)
        by (apply truthy_nonempty; assumption).
      rewrite Hp. symmetry. apply present_after_trim_truthy, Hp. }
    rewrite (E _ Hc), (E _ Hd). reflexivity.
Qed.

Lemma optional_fragments_follow_emptiness_witness :
  (exists rest,
     base_prompt (py "human brain") (py "MRI") (py " ") (py "grey matter") =
     (py "Generate a " ++ py "MRI" ++ py " scan of " ++ py "human brain" ++
      py ". Focus on the medical imaging context only.") ++
     (py " Focus on capturing " ++ py " " ++ py ".") ++ rest) /\
  (exists front,
     base_prompt (py "human brain") (py "MRI") (py " ") (py "grey matter") =
     front ++ (py " Include details such as " ++ py "grey matter" ++ py ".") ++
     closing_sentence) /\
  base_prompt (py "human brain") (py "MRI") (py "glioma") [] =
  build_as_specified (py "human brain") (py "MRI") (py "glioma") [].
Proof.
  split; [|split].
  - apply (optional_fragments_follow_emptiness
             (py "human brain") (py "MRI") (py " ") (py "grey matter")).
    discriminate.
  - apply (optional_fragments_follow_emptiness
             (py "human brain") (py "MRI") (py " ") (py "grey matter")).
    discriminate.
  - apply (optional_fragments_follow_emptiness
             (py "human brain") (py "MRI") (py "glioma") []).
    + right. vm_compute. discriminate.
    + left. reflexivity.
Defined.

(* ================================================================== *)
(** ** The comment buckets *)

(** C6. The comment is a total function of the final score with three
    buckets: below 150 the prompt "could be improved", from 150 up to but
    not including 200 it is "fairly descriptive", from 200 on it is
    "well-structured"; the three comments differ, and every integer score
    lies in exactly one of the three ranges. *)
Theorem comment_three_buckets :
  forall final_score : Z,
    let needs_improvement :=
      "**Comment:** The generated prompt could be improved by making it more specific and detailed." in
    let fairly_descriptive :=
      "**Comment:** The prompt is fairly descriptive, but it could benefit from additional details." in
    let well_structured :=
      "**Comment:** The prompt is well-structured and highly descriptive." in
    ((final_score < 150)%Z <-> comment final_score = needs_improvement) /\
    ((150 <= final_score < 200)%Z <-> comment final_score = fairly_descriptive) /\
    ((200 <= final_score)%Z <-> comment final_score = well_structured) /\
    needs_improvement <> fairly_descriptive /\
    needs_improvement <> well_structured /\
    fairly_descriptive <> well_structured /\
    (((final_score < 150)%Z /\ ~ (150 <= final_score < 200)%Z /\ ~ (200 <= final_score)%Z) \/
     (~ (final_score < 150)%Z /\ (150 <= final_score < 200)%Z /\ ~ (200 <= final_score)%Z) \/
     (~ (final_score < 150)%Z /\ ~ (150 <= final_score < 200)%Z /\ (200 <= final_score)%Z)).
Proof.
  intros final_score. cbv zeta. unfold comment.
  destruct (final_score <? 150)%Z eqn:E1.
  - apply Z.ltb_lt in E1.
    repeat split; intros; try lia; try reflexivity; try discriminate.
  - apply Z.ltb_ge in E1.
    destruct (final_score >=? 150)%Z eqn:E2;
      [|rewrite Z.geb_leb in E2; apply Z.leb_gt in E2; lia].
    destruct (final_score <? 200)%Z eqn:E3; simpl.
    + apply Z.ltb_lt in E3.
      repeat split; intros; try lia; try reflexivity; try discriminate.
    + apply Z.ltb_ge in E3.
      repeat split; intros; try lia; try reflexivity; try discriminate.
Qed.

(* ================================================================== *)
(** ** Start-up: tokenizers and their padding token *)

Lemma dict_set_In (V : Type) (d : pydict V) (k : pystr) (v : V) (k' : pystr) (v' : V) :
  In (k', v') (dict_set d k v) -> In (k', v') d \/ (k' = k /\ v' = v).
Proof.
  induction d as [|[k0 v0] d IH]; simpl.
  - intros [H|[]]. inversion H; subst. right; split; reflexivity.
  - destruct (str_eqb k k0) eqn:E.
    + apply str_eqb_eq in E. subst k0. intros [H|H].
      * inversion H; subst. right; split; reflexivity.
      * left; right; assumption.
    + intros [H|H]; [left; left; assumption|].
      destruct (IH H) as [H'|H']; [left; right; assumption | right; assumption].
Qed.

Lemma dict_set_keys_In (V : Type) (d : pydict V) (k : pystr) (v : V) (k' : pystr) :
  In k' (dict_keys (dict_set d k v)) <-> In k' (dict_keys d) \/ k' = k.
Proof.
  induction d as [|[k0 v0] d IH]; simpl.
  - split; [intros [H|[]]; right; congruence | intros [[]|H]; left; congruence].
  - destruct (str_eqb k k0) eqn:E; simpl.
    + apply str_eqb_eq in E. subst k0. split; [tauto|].
      intros [H|H]; [assumption | left; congruence].
    + rewrite IH. tauto.
Qed.

Lemma dict_comprehension_In (U V : Type) (f : pystr -> U -> V) (src : pydict U)
    (k : pystr) (v : V) :
  In (k, v) (dict_comprehension f src) -> exists u, In (k, u) src /\ v = f k u.
Proof.
  unfold dict_comprehension, dict_items.
  assert (G : forall d : pydict V,
    In (k, v) (fold_left (fun d kv => dict_set d (fst kv) (f (fst kv) (snd kv))) src d) ->
    In (k, v) d \/ exists u, In (k, u) src /\ v = f k u).
  { induction src as [|[k0 u0] src IH]; simpl; intros d H; [left; assumption|].
    destruct (IH _ H) as [H'|[u [Hu Hv]]].
    - apply dict_set_In in H'. destruct H' as [H'|[-> ->]]; [left; assumption|].
      right. exists u0. split; [left; reflexivity | reflexivity].
    - right. exists u. split; [right; assumption | assumption]. }
  intros H. destruct (G [] H) as [[]|H']. assumption.
Qed.

Lemma dict_comprehension_keys_In (U V : Type) (f : pystr -> U -> V)
    (src : pydict U) (k : pystr) :
  In k (dict_keys (dict_comprehension f src)) <-> In k (dict_keys src).
Proof.
  unfold dict_comprehension, dict_items.
  assert (G : forall d : pydict V,
    In k (dict_keys (fold_left (fun d kv => dict_set d (fst kv) (f (fst kv) (snd kv))) src d)) <->
    In k (dict_keys d) \/ In k (dict_keys src)).
  { induction src as [|[k0 u0] src IH]; simpl; intros d; [tauto|].
    rewrite IH, dict_set_keys_In. intuition congruence. }
  rewrite G. simpl. tauto.
Qed.

Lemma ensure_pad_tokens_keys (d : pydict tokenizer) :
  dict_keys (ensure_pad_tokens d) = dict_keys d.
Proof.
  unfold ensure_pad_tokens, dict_keys. rewrite map_map. reflexivity.
Qed.

Lemma ensure_pad_tokens_values (d : pydict tokenizer) :
  dict_values (ensure_pad_tokens d) = map ensure_pad_token (dict_values d).
Proof.
  unfold ensure_pad_tokens, dict_values. rewrite !map_map. reflexivity.
Qed.

Lemma ensure_pad_token_pad (t : tokenizer) :
  pad_token (ensure_pad_token t) =
  match pad_token t with Some p => Some p | None => eos_token t end.
Proof. unfold ensure_pad_token. destruct (pad_token t) eqn:E; simpl; auto. Qed.

(** C8.  After start-up every registered model has a tokenizer, and every
    tokenizer the generation function can look up is the one loaded for
    that model, where a padding token that was absent has been replaced by
    the end-of-sequence token and one that was present has been kept.  The
    tokenizers being loaded with an end-of-sequence token, as those of the
    registered GPT-style models are, none is left without a padding
    token. *)
Theorem tokenizers_have_pad_token :
  forall (B : Backend) (registry : pydict pystr),
    (forall k, In k (dict_keys registry) ->
       exists tok, dict_get (model_tokenizers registry) k = Some tok) /\
    (forall k tok,
       dict_get (model_tokenizers registry) k = Some tok ->
       exists path,
         In (k, path) registry /\
         tok = ensure_pad_token (from_pretrained path) /\
         eos_token tok = eos_token (from_pretrained path) /\
         (pad_token (from_pretrained path) = None ->
            pad_token tok = eos_token (from_pretrained path)) /\
         (pad_token (from_pretrained path) <> None ->
            tok = from_pretrained path)) /\
    ((forall path, eos_token (from_pretrained path) <> None) ->
     forall k tok,
       dict_get (model_tokenizers registry) k = Some tok ->
       pad_token tok <> None).
Proof.
  intros B registry.
  assert (Hloaded : forall k tok,
    dict_get (model_tokenizers registry) k = Some tok ->
    exists path, In (k, path) registry /\
                 tok = ensure_pad_token (from_pretrained path)).
  { intros k tok Hget. apply dict_get_Some_In in Hget.
    unfold model_tokenizers, ensure_pad_tokens in Hget.
    apply in_map_iff in Hget. destruct Hget as [[k0 t0] [Heq Hin]].
    simpl in Heq. inversion Heq; subst k0 tok. clear Heq.
    apply dict_comprehension_In in Hin. destruct Hin as [path [Hin ->]].
    exists path. split; [assumption | reflexivity]. }
  split; [|split].
  - intros k Hk. apply dict_get_key. unfold model_tokenizers.
    rewrite ensure_pad_tokens_keys. unfold load_tokenizers.
    apply dict_comprehension_keys_In. assumption.
  - intros k tok Hget. destruct (Hloaded k tok Hget) as [path [Hin ->]].
    exists path. split; [assumption|]. split; [reflexivity|].
    unfold ensure_pad_token.
    destruct (pad_token (from_pretrained path)) eqn:E; simpl;
      repeat split; congruence.
  - intros Heos k tok Hget. destruct (Hloaded k tok Hget) as [path [_ ->]].
    rewrite ensure_pad_token_pad.
    destruct (pad_token (from_pretrained path)); [discriminate | apply Heos].
Qed.

Lemma tokenizers_have_pad_token_witness :
  (forall path, eos_token (@from_pretrained echo_backend path) <> None) /\
  dict_get (@model_tokenizers echo_backend models) (py "DistilGPT-2") =
    Some (ensure_pad_token (gpt_tokenizer (py "distilgpt2"))) /\
  pad_token (ensure_pad_token (gpt_tokenizer (py "distilgpt2"))) <> None.
Proof.
  assert (Heos : forall path, eos_token (@from_pretrained echo_backend path) <> None)
    by (intros path; simpl; discriminate).
  split; [exact Heos|]. split; [reflexivity|].
  destruct (@tokenizers_have_pad_token echo_backend models) as [_ [_ H]].
  apply (H Heos (py "DistilGPT-2")). reflexivity.
Defined.

(* ================================================================== *)
(** ** The generation loop *)

Lemma dict_get_map_values (U V : Type) (g : U -> V) (d : pydict U) (k : pystr) :
  dict_get (map (fun kv => (fst kv, g (snd kv))) d) k =
  match dict_get d k with Some u => Some (g u) | None => None end.
Proof.
  induction d as [|[k0 u0] d IH]; simpl; [reflexivity|].
  destruct (str_eqb k k0); [reflexivity | apply IH].
Qed.

Lemma combine_map_values (U V : Type) (g : U -> V) (names : list pystr) (vals : list U) :
  combine names (map g vals) = map (fun kv => (fst kv, g (snd kv))) (combine names vals).
Proof.
  revert vals; induction names as [|n names IH]; intros [|v vals]; simpl;
    try reflexivity.
  f_equal. apply IH.
Qed.

(** With distinct names in the registry, start-up gives every registered
    model the tokenizer and the model loaded from its path. *)
Lemma startup_lookups (B : Backend) (registry : pydict pystr) (k : pystr) :
  NoDup (dict_keys registry) ->
  dict_get (model_tokenizers registry) k =
    match dict_get registry k with
    | Some path => Some (ensure_pad_token (from_pretrained path))
    | None => None
    end /\
  dict_get (model_objects registry) k = dict_get registry k.
Proof.
  intros Hnd. unfold model_tokenizers, load_tokenizers, model_objects.
  rewrite !dict_comprehension_map by assumption. split.
  - unfold ensure_pad_tokens. rewrite map_map. simpl.
    rewrite (dict_get_map_values (fun path => ensure_pad_token (from_pretrained path))).
    reflexivity.
  - rewrite (dict_get_map_values (fun path : pystr => path)).
    destruct (dict_get registry k); reflexivity.
Qed.

(** One call of [generate_prompt_with_model] for a model that is loaded. *)
Lemma generate_prompt_with_model_run (B : Backend)
    (tokenizers : pydict tokenizer) (objects : pydict pystr)
    (model_name description modality condition details : pystr)
    (max_length : Z) (tok : tokenizer) (path : pystr) (w : world) :
  dict_get tokenizers model_name = Some tok ->
  dict_get objects model_name = Some path ->
  let instruction := base_prompt description modality condition details in
  let outcome := run_model tok path instruction max_length (sampler w) in
  generate_prompt_with_model tokenizers objects model_name
    description modality condition details max_length w =
  (match fst outcome with
   | inl e => inl e
   | inr text => inr (strip text)
   end,
   {| sampler := snd outcome;
      log := log w ++ [Templated instruction;
                       Invoked model_name instruction max_length] |}).
Proof.
  intros Htok Hobj instruction outcome.
  unfold generate_prompt_with_model, bind, subscript, emit, call_backend, ret.
  rewrite Htok, Hobj. simpl. fold instruction. fold outcome.
  rewrite <- app_assoc. simpl.
  destruct outcome as [[e|text] s']; reflexivity.
Qed.

Lemma generation_loop_cons (B : Backend)
    (tokenizers : pydict tokenizer) (objects : pydict pystr)
    (k : pystr) (rest : list pystr)
    (description modality condition details : pystr) (max_length : Z)
    (acc : accumulators) :
  generation_loop tokenizers objects (k :: rest)
    description modality condition details max_length acc =
  (output <- generate_prompt_with_model tokenizers objects k
               description modality condition details max_length ;;
   generation_loop tokenizers objects rest
     description modality condition details max_length
     {| results := dict_set (results acc) k output;
        model_scores := dict_set (model_scores acc) k (final_score_of output);
        length_scores := length_scores acc ++ [length_score_of output];
        clarity_scores := clarity_scores acc ++ [clarity_score_of output] |}).
Proof. reflexivity. Qed.

Lemma loop_events_app (a b : list pystr) (instruction : pystr) (max_length : Z) :
  loop_events (a ++ b) instruction max_length =
  loop_events a instruction max_length ++ loop_events b instruction max_length.
Proof. unfold loop_events. apply flat_map_app. Qed.

Section Loop.
Context {B : Backend}.
Variables (tokenizers : pydict tokenizer) (objects : pydict pystr).
Variables (description modality condition details : pystr) (max_length : Z).

Let instruction := base_prompt description modality condition details.

(** The loop either returns one output per name, stored in the order of
    the names, or stops at the first name whose backend call raises, with
    that exception. *)
Lemma generation_loop_spec (names : list pystr) :
  forall (acc : accumulators) (w : world),
    (forall k, In k names ->
       exists tok path, dict_get tokenizers k = Some tok /\
                        dict_get objects k = Some path) ->
    NoDup names ->
    (forall k, In k names -> ~ In k (dict_keys (results acc))) ->
    (forall k, In k names -> ~ In k (dict_keys (model_scores acc))) ->
    match generation_loop tokenizers objects names
            description modality condition details max_length acc w with
    | (inr acc', w') =>
        exists outputs,
          List.length outputs = List.length names /\
          results acc' = results acc ++ combine names outputs /\
          model_scores acc' =
            model_scores acc ++ combine names (map final_score_of outputs) /\
          length_scores acc' =
            length_scores acc ++ map length_score_of outputs /\
          clarity_scores acc' =
            clarity_scores acc ++ map clarity_score_of outputs /\
          log w' = log w ++ loop_events names instruction max_length /\
          Forall2 (fun k output =>
                     exists tok path s raw,
                       dict_get tokenizers k = Some tok /\
                       dict_get objects k = Some path /\
                       fst (run_model tok path instruction max_length s) = inr raw /\
                       output = strip raw)
                  names outputs
    | (inl e, w') =>
        exists done k rest tok path s,
          names = done ++ k :: rest /\
          dict_get tokenizers k = Some tok /\
          dict_get objects k = Some path /\
          fst (run_model tok path instruction max_length s) = inl e /\
          log w' = log w ++ loop_events (done ++ [k]) instruction max_length
    end.
Proof.
  induction names as [|k rest IH]; intros acc w Hres Hnd Hfr Hfs.
  - simpl. exists []. simpl. rewrite !app_nil_r.
    repeat split; try reflexivity. constructor.
  - rewrite generation_loop_cons. unfold bind at 1.
    destruct (Hres k (or_introl eq_refl)) as [tok [path [Htok Hobj]]].
    rewrite (@generate_prompt_with_model_run B tokenizers objects k description
               modality condition details max_length tok path w Htok Hobj).
    fold instruction.
    destruct (run_model tok path instruction max_length (sampler w))
      as [[e|text] s'] eqn:Erun; simpl.
    + exists [], k, rest, tok, path, (sampler w). rewrite Erun. simpl.
      repeat split; try assumption; reflexivity.
    + inversion Hnd as [|? ? Hk Hnd']; subst.
      set (acc2 := {| results := dict_set (results acc) k (strip text);
                      model_scores := _; length_scores := _;
                      clarity_scores := _ |}).
      set (w2 := {| sampler := s'; log := _ |}).
      assert (Hr2 : results acc2 = results acc ++ [(k, strip text)]).
      { unfold acc2; simpl. apply dict_set_fresh, Hfr. left; reflexivity. }
      assert (Hs2 : model_scores acc2 =
                    model_scores acc ++ [(k, final_score_of (strip text))]).
      { unfold acc2; simpl. apply dict_set_fresh, Hfs. left; reflexivity. }
      specialize (IH acc2 w2).
      destruct (generation_loop tokenizers objects rest description modality
                  condition details max_length acc2 w2) as [[e|acc'] w'].
      * destruct IH as [done [k' [rest' [tok' [path' [s [Hn [Ht [Ho [Hr Hl]]]]]]]]]].
        { intros k' Hk'. apply Hres. right; assumption. }
        { assumption. }
        { intros k' Hk'. rewrite Hr2, dict_keys_app. simpl.
          intros Hin. apply in_app_or in Hin. destruct Hin as [Hin|[<-|[]]].
          - apply (Hfr k'); [right; assumption | assumption].
          - contradiction. }
        { intros k' Hk'. rewrite Hs2, dict_keys_app. simpl.
          intros Hin. apply in_app_or in Hin. destruct Hin as [Hin|[<-|[]]].
          - apply (Hfs k'); [right; assumption | assumption].
          - contradiction. }
        exists (k :: done), k', rest', tok', path', s.
        repeat split; try assumption.
        { simpl. rewrite Hn. reflexivity. }
        { rewrite Hl. unfold w2. simpl. rewrite <- app_assoc. reflexivity. }
      * destruct IH as [outputs [Hlen [Hr [Hs [Hls [Hcs [Hl Hgen]]]]]]].
        { intros k' Hk'. apply Hres. right; assumption. }
        { assumption. }
        { intros k' Hk'. rewrite Hr2, dict_keys_app. simpl.
          intros Hin. apply in_app_or in Hin. destruct Hin as [Hin|[<-|[]]].
          - apply (Hfr k'); [right; assumption | assumption].
          - contradiction. }
        { intros k' Hk'. rewrite Hs2, dict_keys_app. simpl.
          intros Hin. apply in_app_or in Hin. destruct Hin as [Hin|[<-|[]]].
          - apply (Hfs k'); [right; assumption | assumption].
          - contradiction. }
        exists (strip text :: outputs). simpl.
        rewrite Hr, Hs, Hls, Hcs, Hl, Hr2, Hs2. unfold acc2, w2. simpl.
        rewrite <- !app_assoc. simpl.
        repeat split; try reflexivity; try lia.
        constructor; [|assumption].
        exists tok, path, (sampler w), text. rewrite Erun.
        repeat split; try assumption; reflexivity.
Qed.
End Loop.

(* ================================================================== *)
(** ** Selecting the best model *)

Lemma max_scan_spec (key : pystr -> option Z) (rest : list pystr) :
  forall (before : list pystr) (best : pystr) (after : list pystr) (v : Z),
    key best = Some v ->
    (forall k, In k before -> exists u, key k = Some u /\ (u < v)%Z) ->
    (forall k, In k after -> exists u, key k = Some u /\ (u <= v)%Z) ->
    (forall k, In k rest -> exists u, key k = Some u) ->
    exists b l1 l2 vb,
      max_scan key best (Some v) rest = inr b /\
      before ++ best :: after ++ rest = l1 ++ b :: l2 /\
      key b = Some vb /\
      (forall k, In k l1 -> exists u, key k = Some u /\ (u < vb)%Z) /\
      (forall k, In k l2 -> exists u, key k = Some u /\ (u <= vb)%Z).
Proof.
  induction rest as [|item rest IH]; intros before best after v Hbest Hb Ha Hr.
  - simpl. exists best, before, after, v. rewrite app_nil_r.
    repeat split; assumption.
  - destruct (Hr item (or_introl eq_refl)) as [u Hu].
    simpl. rewrite Hu. simpl. destruct (u >? v)%Z eqn:E.
    + apply Z.gtb_lt in E.
      destruct (IH (before ++ best :: after) item [] u Hu) as
        [b [l1 [l2 [vb [Hm [Hsplit [Hkb [H1 H2]]]]]]]].
      * intros k Hk. apply in_app_or in Hk. destruct Hk as [Hk|[<-|Hk]].
        -- destruct (Hb k Hk) as [x [Hx Hlt]]. exists x. split; [assumption | lia].
        -- exists v. split; [assumption | lia].
        -- destruct (Ha k Hk) as [x [Hx Hle]]. exists x. split; [assumption | lia].
      * intros k [].
      * intros k Hk. apply Hr. right; assumption.
      * exists b, l1, l2, vb. repeat split; try assumption.
        rewrite <- Hsplit. rewrite <- app_assoc. reflexivity.
    + rewrite Z.gtb_ltb in E. apply Z.ltb_ge in E.
      destruct (IH before best (after ++ [item]) v Hbest Hb) as
        [b [l1 [l2 [vb [Hm [Hsplit [Hkb [H1 H2]]]]]]]].
      * intros k Hk. apply in_app_or in Hk. destruct Hk as [Hk|[<-|[]]].
        -- apply Ha, Hk.
        -- exists u. split; [assumption | lia].
      * intros k Hk. apply Hr. right; assumption.
      * exists b, l1, l2, vb. repeat split; try assumption.
        rewrite <- Hsplit. rewrite <- app_assoc. reflexivity.
Qed.

(** [max(d, key=d.get)] on a non-empty dictionary of integers returns the
    first key that holds the largest value. *)
Lemma py_max_first_maximum (d : pydict Z) :
  d <> [] ->
  exists best, py_max (dict_keys d) (dict_get d) = inr best /\ first_maximum d best.
Proof.
  destruct d as [|[k0 v0] d]; [congruence|]. intros _.
  assert (Hall : forall k, In k (dict_keys ((k0, v0) :: d)) ->
                           exists u, dict_get ((k0, v0) :: d) k = Some u).
  { intros k Hk. apply dict_get_key, Hk. }
  assert (H0 : dict_get ((k0, v0) :: d) k0 = Some v0).
  { simpl. rewrite str_eqb_refl. reflexivity. }
  destruct (@max_scan_spec (dict_get ((k0, v0) :: d)) (dict_keys d) [] k0 [] v0 H0)
    as [b [l1 [l2 [vb [Hm [Hsplit [Hkb [H1 H2]]]]]]]].
  - intros k [].
  - intros k [].
  - intros k Hk. apply Hall. right. assumption.
  - exists b. split.
    + unfold py_max. cbn [dict_keys map fst]. fold (dict_keys d).
      rewrite H0. exact Hm.
    + exists l1, l2, vb. repeat split; assumption.
Qed.

Lemma first_maximum_is_maximum (d : pydict Z) (best k : pystr) :
  first_maximum d best -> In k (dict_keys d) ->
  exists u v, dict_get d k = Some u /\ dict_get d best = Some v /\ (u <= v)%Z.
Proof.
  intros [before [after [v [Hkeys [Hv [Hb Ha]]]]]] Hk.
  rewrite Hkeys in Hk. apply in_app_or in Hk. destruct Hk as [Hk|[<-|Hk]].
  - destruct (Hb k Hk) as [u [Hu Hlt]]. exists u, v. repeat split; try assumption. lia.
  - exists v, v. repeat split; try assumption. lia.
  - destruct (Ha k Hk) as [u [Hu Hle]]. exists u, v. repeat split; assumption.
Qed.

Lemma first_maximum_key (d : pydict Z) (best : pystr) :
  first_maximum d best -> In best (dict_keys d).
Proof.
  intros [before [after [v [Hkeys _]]]]. rewrite Hkeys.
  apply in_or_app. right; left; reflexivity.
Qed.

(* ================================================================== *)
(** ** The comparison as a whole *)

Lemma Forall2_combine_In (A C : Type) (R : A -> C -> Prop) (l : list A) (l' : list C)
    (a : A) (c : C) :
  Forall2 R l l' -> In (a, c) (combine l l') -> R a c.
Proof.
  induction 1 as [|x y l l' Hxy _ IH]; simpl; [contradiction|].
  intros [H|H]; [inversion H; subst; assumption | apply IH, H].
Qed.

Lemma metrics_of_entry (k text : pystr) :
  metrics_of (k, text) =
  {| metrics_model := k;
     metrics_length := length_score_of text;
     metrics_clarity := clarity_score_of text;
     metrics_final := final_score_of text;
     metrics_first_words := join_space (firstn 10 (split text));
     metrics_comment := comment (final_score_of text) |}.
Proof. reflexivity. Qed.

Lemma report_models (items : pydict pystr) :
  map metrics_model (map metrics_of items) = dict_keys items.
Proof.
  unfold dict_keys. rewrite map_map. apply map_ext. intros [k text]. reflexivity.
Qed.

Lemma compare_over_empty (B : Backend)
    (description modality condition details : pystr) (max_length : Z) (w : world) :
  compare_over [] description modality condition details max_length w =
  (inl ValueError_empty_max, w).
Proof. reflexivity. Qed.

(** A comparison over a registry with distinct names either returns a
    ranked result with one entry per registered model, after one backend
    call per model in registration order, or raises: the exception of the
    first backend call that raised, or that of [max] when the registry is
    empty. *)
Lemma compare_over_spec (B : Backend) (registry : pydict pystr)
    (description modality condition details : pystr) (max_length : Z) (w : world) :
  NoDup (dict_keys registry) ->
  match compare_over registry description modality condition details max_length w with
  | (inr res, w') =>
      registry <> [] /\
      ranked (dict_keys registry) res /\
      log w' = log w ++
        loop_events (dict_keys registry)
          (base_prompt description modality condition details) max_length /\
      (forall k text,
         dict_get (generated res) k = Some text ->
         generated_by registry description modality condition details
           max_length k text)
  | (inl e, w') =>
      (registry = [] /\ e = ValueError_empty_max /\ w' = w) \/
      (exists done k rest,
         dict_keys registry = done ++ k :: rest /\
         raised_by registry description modality condition details max_length k e /\
         log w' = log w ++
           loop_events (done ++ [k])
             (base_prompt description modality condition details) max_length)
  end.
Proof.
  intros Hnd.
  destruct registry as [|entry registry'] eqn:Ereg.
  { rewrite compare_over_empty. left. repeat split; reflexivity. }
  rewrite <- Ereg in *.
  assert (Hne : registry <> []) by (rewrite Ereg; discriminate).
  clear Ereg entry registry'.
  unfold compare_over, compare_with. unfold bind at 1.
  pose proof (@generation_loop_spec B (model_tokenizers registry)
                (model_objects registry) description modality condition details
                max_length (dict_keys registry) empty_accumulators w) as Hloop.
  destruct (generation_loop (model_tokenizers registry) (model_objects registry)
              (dict_keys registry) description modality condition details
              max_length empty_accumulators w) as [[e|acc] w'].
  - destruct Hloop as [done [k [rest [tok [path [s [Hn [Ht [Ho [Hr Hl]]]]]]]]]];
      try assumption; try (intros k Hk; simpl; tauto).
    { intros k Hk. destruct (dict_get_key _ _ Hk) as [path Hpath].
      destruct (@startup_lookups B registry k Hnd) as [E1 E2].
      rewrite Hpath in E1, E2. eauto. }
    right. exists done, k, rest. split; [assumption|]. split; [|assumption].
    exists tok, path, s. split; [assumption|]. split; [|assumption].
    destruct (@startup_lookups B registry k Hnd) as [_ E2]. congruence.
  - destruct Hloop as [outputs [Hlen [Hr [Hs [Hls [Hcs [Hl Hgen]]]]]]];
      try assumption; try (intros k Hk; simpl; tauto).
    { intros k Hk. destruct (dict_get_key _ _ Hk) as [path Hpath].
      destruct (@startup_lookups B registry k Hnd) as [E1 E2].
      rewrite Hpath in E1, E2. eauto. }
    simpl in Hr, Hs, Hls, Hcs.
    assert (Hkr : dict_keys (results acc) = dict_keys registry).
    { rewrite Hr. apply dict_keys_combine. assumption. }
    assert (Hks : dict_keys (model_scores acc) = dict_keys registry).
    { rewrite Hs. apply dict_keys_combine. rewrite length_map. assumption. }
    assert (Hsne : model_scores acc <> []).
    { intros E. rewrite E in Hks. simpl in Hks.
      destruct registry; [congruence | discriminate]. }
    destruct (py_max_first_maximum Hsne) as [best [Hmax Hfirst]].
    assert (Hbest : In best (dict_keys registry)).
    { rewrite <- Hks. apply first_maximum_key, Hfirst. }
    destruct (@dict_get_key _ (results acc) best) as [bp Hbp].
    { rewrite Hkr. assumption. }
    unfold bind, lift, subscript, ret. rewrite Hmax, Hbp.
    split; [assumption|]. split; [|split; [assumption|]].
    2:{ cbn [generated]. intros k text Hget. rewrite Hr in Hget.
        apply dict_get_Some_In in Hget.
        pose proof (@Forall2_combine_In _ _ _ _ _ _ _ Hgen Hget) as Hk. cbv beta in Hk.
        destruct Hk as [tok [path [s [raw [Ht [Ho [Hrun ->]]]]]]].
        exists tok, path, s, raw. split; [assumption|]. split; [|split; [assumption|reflexivity]].
        destruct (@startup_lookups B registry k Hnd) as [_ E2]. congruence. }
    unfold ranked. cbn [generated scores best_model best_prompt report].
    split; [assumption|]. split; [assumption|]. split; [assumption|].
    split; [unfold dict_items; rewrite report_models; assumption|].
    split; [unfold dict_items; rewrite length_map, <- Hkr; symmetry; apply length_map|].
    split; [|split; [assumption|split; [|split; assumption]]].
    + intros k Hk.
      destruct (@dict_get_combine _ (dict_keys registry) outputs k Hnd Hlen Hk)
        as [text [Hget Hin]].
      exists text. rewrite Hr, Hs. split; [assumption|]. split.
      * rewrite combine_map_values, dict_get_map_values, Hget. reflexivity.
      * rewrite <- metrics_of_entry. apply in_map. exact Hin.
    + intros k Hk. rewrite <- Hks in Hk.
      destruct (@first_maximum_is_maximum _ best k Hfirst Hk) as [u [v [Hu [Hv Hle]]]].
      unfold score_of. cbn [scores best_model]. rewrite Hu, Hv. assumption.
Qed.

Lemma dict_set_nonempty (V : Type) (d : pydict V) (k : pystr) (v : V) :
  dict_set d k v <> [].
Proof. destruct d as [|[k' v'] d]; simpl; [|destruct (str_eqb k k')]; discriminate. Qed.

Lemma dict_literal_nonempty (V : Type) (entries : list (pystr * V)) :
  entries <> [] -> dict_literal entries <> [].
Proof.
  unfold dict_literal.
  assert (G : forall d : pydict V, d <> [] ->
    fold_left (fun d kv => dict_set d (fst kv) (snd kv)) entries d <> []).
  { induction entries as [|kv entries IH]; simpl; intros d Hd; [assumption|].
    apply IH, dict_set_nonempty. }
  destruct entries as [|kv entries']; [congruence|]. intros _. simpl.
  clear G.
  assert (G : forall (l : list (pystr * V)) (d : pydict V), d <> [] ->
    fold_left (fun d kv => dict_set d (fst kv) (snd kv)) l d <> []).
  { induction l as [|x l IH]; simpl; intros d Hd; [assumption|].
    apply IH, dict_set_nonempty. }
  apply G. discriminate.
Qed.

(** C1.  A comparison over a registry of N >= 1 models (any dictionary
    literal) either returns or stops on an exception raised by the backend
    call of a registered model.  When it returns, the result holds exactly N
    entries, one per registered model and in registration order, under
    pairwise distinct names, each scored by [evaluate_prompt] on its text;
    the best model is one of the N names, no entry has a larger final
    score, and every model registered before it has a strictly smaller final
    score.  With a backend that never raises the comparison returns. *)
Theorem compare_returns_ranked_entries :
  forall (B : Backend) (entries : list (pystr * pystr))
         (description modality condition details : pystr) (max_length : Z)
         (w : world),
    entries <> [] ->
    let registry := dict_literal entries in
    match compare_over registry description modality condition details
            max_length w with
    | (inr res, _) => ranked (dict_keys registry) res
    | (inl e, _) =>
        exists k, In k (dict_keys registry) /\
                  raised_by registry description modality condition details
                            max_length k e
    end /\
    ((forall tok path instruction s,
        exists raw, fst (run_model tok path instruction max_length s) = inr raw) ->
     exists res w',
       compare_over registry description modality condition details
         max_length w = (inr res, w') /\
       ranked (dict_keys registry) res).
Proof.
  intros B entries description modality condition details max_length w Hne registry.
  pose proof (@compare_over_spec B registry description modality condition
                details max_length w (dict_literal_keys_NoDup entries)) as H.
  assert (Hreg : registry <> []) by (apply dict_literal_nonempty, Hne).
  destruct (compare_over registry description modality condition details
              max_length w) as [[e|res] w'].
  - destruct H as [[E _]|[done [k [rest [Hk [Hr _]]]]]]; [congruence|].
    split.
    + exists k. split; [|assumption]. rewrite Hk.
      apply in_or_app. right; left; reflexivity.
    + intros Hok. exfalso. destruct Hr as [tok [path [s [_ [_ Hr]]]]].
      destruct (Hok tok path (base_prompt description modality condition details) s)
        as [raw Hraw].
      congruence.
  - destruct H as [_ [Hranked _]]. split; [assumption|].
    intros _. exists res, w'. split; [reflexivity | assumption].
Qed.

Lemma compare_returns_ranked_entries_witness :
  exists res w',
    compare_over (B:=neo_continues_backend)
      (dict_literal [ (py "DistilGPT-2", py "distilgpt2");
                      (py "GPT-Neo-125M", py "EleutherAI/gpt-neo-125M") ])
      (py "human brain") (py "MRI") [] [] 100 (@fresh_world neo_continues_backend 0%nat) = (inr res, w') /\
    ranked (dict_keys (dict_literal
                         [ (py "DistilGPT-2", py "distilgpt2");
                           (py "GPT-Neo-125M", py "EleutherAI/gpt-neo-125M") ])) res.
Proof.
  apply (@compare_returns_ranked_entries neo_continues_backend
           [ (py "DistilGPT-2", py "distilgpt2");
             (py "GPT-Neo-125M", py "EleutherAI/gpt-neo-125M") ]
           (py "human brain") (py "MRI") [] [] 100%Z (@fresh_world neo_continues_backend 0%nat)).
  - discriminate.
  - intros tok path instruction s. simpl.
    destruct (str_eqb path (py "EleutherAI/gpt-neo-125M")); eexists; reflexivity.
Defined.

Example compare_picks_longer_output :
  match compare (B:=neo_continues_backend)
          (py "human brain") (py "MRI") [] [] 100 (@fresh_world neo_continues_backend 0%nat) with
  | (inr res, _) =>
      best_model res = py "GPT-Neo-125M" /\
      score_of res (py "DistilGPT-2") = 54%Z /\
      score_of res (py "GPT-Neo-125M") = 64%Z
  | (inl _, _) => False
  end.
Proof. vm_compute. repeat split; reflexivity. Qed.

(* ================================================================== *)
(** ** Reading the log of a comparison *)

Lemma invoked_models_app (a b : list event) :
  invoked_models (a ++ b) = invoked_models a ++ invoked_models b.
Proof. unfold invoked_models. apply flat_map_app. Qed.

Lemma invoked_instructions_app (a b : list event) :
  invoked_instructions (a ++ b) = invoked_instructions a ++ invoked_instructions b.
Proof. unfold invoked_instructions. apply flat_map_app. Qed.

Lemma template_evaluations_app (a b : list event) :
  template_evaluations (a ++ b) = template_evaluations a ++ template_evaluations b.
Proof. unfold template_evaluations. apply flat_map_app. Qed.

Lemma invoked_models_loop (names : list pystr) (instruction : pystr) (max_length : Z) :
  invoked_models (loop_events names instruction max_length) = names.
Proof. induction names as [|k names IH]; simpl; [|rewrite IH]; reflexivity. Qed.

Lemma invoked_instructions_loop (names : list pystr) (instruction : pystr) (max_length : Z) :
  invoked_instructions (loop_events names instruction max_length) =
  repeat instruction (List.length names).
Proof. induction names as [|k names IH]; simpl; [|rewrite IH]; reflexivity. Qed.

Lemma template_evaluations_loop (names : list pystr) (instruction : pystr) (max_length : Z) :
  template_evaluations (loop_events names instruction max_length) =
  repeat instruction (List.length names).
Proof. induction names as [|k names IH]; simpl; [|rewrite IH]; reflexivity. Qed.

(* ================================================================== *)
(** ** The registry of the script *)

Lemma models_keys : dict_keys models = [py "DistilGPT-2"; py "GPT-Neo-125M"].
Proof. reflexivity. Qed.

Lemma models_keys_NoDup : NoDup (dict_keys models).
Proof. apply distinct_NoDup. reflexivity. Qed.

Lemma two_keys_split (a b k : pystr) (done rest : list pystr) :
  [a; b] = done ++ k :: rest ->
  (done = [] /\ k = a /\ rest = [b]) \/ (done = [a] /\ k = b /\ rest = []).
Proof.
  destruct done as [|x [|y done]]; simpl; intros H; inversion H; subst.
  - left. repeat split.
  - right. repeat split.
  - destruct done; discriminate.
Qed.

(** C10.  The registry holds exactly two models, "DistilGPT-2" first and
    "GPT-Neo-125M" second.  Every comparison calls the backends in that
    order (stopping after the first call that raises).  When it returns,
    the best model is "GPT-Neo-125M" if its final score is strictly the
    larger one and "DistilGPT-2" otherwise; in particular equal final
    scores select "DistilGPT-2". *)
Theorem registry_order_breaks_ties :
  dict_keys models = [py "DistilGPT-2"; py "GPT-Neo-125M"] /\
  forall (B : Backend) (description modality condition details : pystr)
         (max_length : Z) (w : world),
    match compare description modality condition details max_length w with
    | (inr res, w') =>
        invoked_models (log w') =
          invoked_models (log w) ++ [py "DistilGPT-2"; py "GPT-Neo-125M"] /\
        dict_keys (scores res) = [py "DistilGPT-2"; py "GPT-Neo-125M"] /\
        (score_of res (py "DistilGPT-2") = score_of res (py "GPT-Neo-125M") ->
         best_model res = py "DistilGPT-2") /\
        best_model res =
          (if (score_of res (py "GPT-Neo-125M") >? score_of res (py "DistilGPT-2"))%Z
           then py "GPT-Neo-125M" else py "DistilGPT-2")
    | (inl e, w') =>
        invoked_models (log w') = invoked_models (log w) ++ [py "DistilGPT-2"] \/
        invoked_models (log w') =
          invoked_models (log w) ++ [py "DistilGPT-2"; py "GPT-Neo-125M"]
    end.
Proof.
  split; [reflexivity|].
  intros B description modality condition details max_length w.
  unfold compare.
  pose proof (@compare_over_spec B models description modality condition
                details max_length w models_keys_NoDup) as H.
  destruct (compare_over models description modality condition details
              max_length w) as [[e|res] w'].
  - destruct H as [[E _]|[done [k [rest [Hk [_ Hl]]]]]]; [discriminate|].
    rewrite Hl, invoked_models_app, invoked_models_loop.
    rewrite models_keys in Hk.
    destruct (two_keys_split _ _ _ Hk) as [[-> [-> _]]|[-> [-> _]]];
      [left | right]; reflexivity.
  - destruct H as [_ [Hranked [Hl _]]].
    rewrite Hl, invoked_models_app, invoked_models_loop, models_keys.
    split; [reflexivity|].
    destruct Hranked as [_ [_ [Hks [_ [_ [_ [_ [_ [Hfirst _]]]]]]]]].
    rewrite models_keys in Hks. split; [assumption|].
    destruct Hfirst as [before [after [v [Hkeys [Hv [Hb Ha]]]]]].
    rewrite Hks in Hkeys.
    destruct (two_keys_split _ _ _ Hkeys) as [[-> [Hbest ->]]|[-> [Hbest ->]]].
    + destruct (Ha (py "GPT-Neo-125M") (or_introl eq_refl)) as [u [Hu Hle]].
      unfold score_of. rewrite <- Hbest, Hv, Hu.
      split; [reflexivity|].
      destruct (u >? v)%Z eqn:E; [apply Z.gtb_lt in E; lia | reflexivity].
    + destruct (Hb (py "DistilGPT-2") (or_introl eq_refl)) as [u [Hu Hlt]].
      unfold score_of. rewrite <- Hbest, Hv, Hu.
      split; [intros; lia|].
      destruct (v >? u)%Z eqn:E; [reflexivity|].
      rewrite Z.gtb_ltb in E. apply Z.ltb_ge in E. lia.
Qed.

Lemma registry_order_breaks_ties_witness :
  match compare (B:=echo_backend) (py "human brain") (py "MRI") [] [] 100
          (@fresh_world echo_backend 0%nat) with
  | (inr res, _) =>
      score_of res (py "DistilGPT-2") = score_of res (py "GPT-Neo-125M") /\
      best_model res = py "DistilGPT-2"
  | (inl _, _) => False
  end.
Proof.
  pose proof (proj2 registry_order_breaks_ties echo_backend
                (py "human brain") (py "MRI") [] [] 100%Z
                (@fresh_world echo_backend 0%nat)) as H.
  destruct (compare (B:=echo_backend) (py "human brain") (py "MRI") [] [] 100
              (@fresh_world echo_backend 0%nat)) as [[e|res] w'] eqn:E.
  - vm_compute in E. discriminate.
  - destruct H as [_ [_ [Htie _]]].
    assert (T : score_of res (py "DistilGPT-2") = score_of res (py "GPT-Neo-125M")).
    { vm_compute in E. inversion E. reflexivity. }
    split; [exact T | exact (Htie T)].
Defined.

(* ================================================================== *)
(** ** One instruction for all models *)

(** C7, as the specification states it, fails on the count: in a comparison
    over the two registered models the template block runs twice, once in
    each call of [generate_prompt_with_model], not once. *)
Lemma instruction_rebuilt_for_each_model :
  template_evaluations
    (log (snd (compare (B:=echo_backend) (py "human brain") (py "MRI") [] [] 100
                 (@fresh_world echo_backend 0%nat)))) =
    [base_prompt (py "human brain") (py "MRI") [] [];
     base_prompt (py "human brain") (py "MRI") [] []] /\
  List.length
    (template_evaluations
       (log (snd (compare (B:=echo_backend) (py "human brain") (py "MRI") [] [] 100
                    (@fresh_world echo_backend 0%nat))))) <> 1%nat.
Proof. split; [vm_compute; reflexivity | vm_compute; discriminate]. Qed.

Lemma models_lookups (B : Backend) :
  dict_get (model_tokenizers models) (py "DistilGPT-2") =
    Some (ensure_pad_token (from_pretrained (py "distilgpt2"))) /\
  dict_get (model_objects models) (py "DistilGPT-2") = Some (py "distilgpt2") /\
  dict_get (model_tokenizers models) (py "GPT-Neo-125M") =
    Some (ensure_pad_token (from_pretrained (py "EleutherAI/gpt-neo-125M"))) /\
  dict_get (model_objects models) (py "GPT-Neo-125M") =
    Some (py "EleutherAI/gpt-neo-125M").
Proof. repeat split; reflexivity. Qed.

(** The script's comparison, call by call: DistilGPT-2's backend is called
    at the state the comparison starts in, GPT-Neo's at the state that call
    left, both with the instruction built from the fields; the first call
    that raises ends the comparison with its exception. *)
Lemma compare_models_exact (B : Backend)
    (description modality condition details : pystr) (max_length : Z) (w : world) :
  let instruction := base_prompt description modality condition details in
  let first :=
    run_model (ensure_pad_token (from_pretrained (py "distilgpt2")))
      (py "distilgpt2") instruction max_length (sampler w) in
  let second :=
    run_model (ensure_pad_token (from_pretrained (py "EleutherAI/gpt-neo-125M")))
      (py "EleutherAI/gpt-neo-125M") instruction max_length (snd first) in
  compare description modality condition details max_length w =
  match fst first with
  | inl e =>
      (inl e,
       {| sampler := snd first;
          log := log w ++
                 [Templated instruction;
                  Invoked (py "DistilGPT-2") instruction max_length] |})
  | inr raw_d =>
      match fst second with
      | inl e =>
          (inl e,
           {| sampler := snd second;
              log := log w ++
                     [Templated instruction;
                      Invoked (py "DistilGPT-2") instruction max_length;
                      Templated instruction;
                      Invoked (py "GPT-Neo-125M") instruction max_length] |})
      | inr raw_n =>
          (inr (two_model_result (strip raw_d) (strip raw_n)),
           {| sampler := snd second;
              log := log w ++
                     [Templated instruction;
                      Invoked (py "DistilGPT-2") instruction max_length;
                      Templated instruction;
                      Invoked (py "GPT-Neo-125M") instruction max_length] |})
      end
  end.
Proof.
  intros instruction first second.
  destruct (models_lookups B) as [Htd [Hod [Htn Hon]]].
  unfold compare, compare_over, compare_with.
  change (dict_keys models) with [py "DistilGPT-2"; py "GPT-Neo-125M"].
  rewrite generation_loop_cons. unfold bind at 1. unfold bind at 1.
  rewrite (@generate_prompt_with_model_run B _ _ _ description modality
             condition details max_length _ _ w Htd Hod).
  fold instruction. fold first.
  destruct (fst first) as [e|raw_d]; [reflexivity|].
  set (w1 := {| sampler := snd first; log := _ |}).
  rewrite generation_loop_cons. unfold bind at 1.
  rewrite (@generate_prompt_with_model_run B _ _ _ description modality
             condition details max_length _ _ w1 Htn Hon).
  fold instruction. change (sampler w1) with (snd first). fold second.
  unfold w1. cbn [log]. rewrite <- app_assoc. cbn [app].
  destruct (fst second) as [e|raw_n]; [reflexivity|].
  cbn [generation_loop]. unfold bind, lift, subscript, ret, two_model_result.
  cbn [results model_scores length_scores clarity_scores empty_accumulators].
  change (dict_set (dict_set [] (py "DistilGPT-2") (strip raw_d))
            (py "GPT-Neo-125M") (strip raw_n))
    with [(py "DistilGPT-2", strip raw_d); (py "GPT-Neo-125M", strip raw_n)].
  change (dict_set (dict_set [] (py "DistilGPT-2") (final_score_of (strip raw_d)))
            (py "GPT-Neo-125M") (final_score_of (strip raw_n)))
    with [(py "DistilGPT-2", final_score_of (strip raw_d));
          (py "GPT-Neo-125M", final_score_of (strip raw_n))].
  generalize (final_score_of (strip raw_d)) (final_score_of (strip raw_n)).
  intros score_d score_n.
  assert (E : py_max
                (dict_keys [(py "DistilGPT-2", score_d); (py "GPT-Neo-125M", score_n)])
                (dict_get [(py "DistilGPT-2", score_d); (py "GPT-Neo-125M", score_n)]) =
              inr (if (score_n >? score_d)%Z
                   then py "GPT-Neo-125M" else py "DistilGPT-2")).
  { unfold py_max, dict_keys. cbn [map fst max_scan].
    change (dict_get [(py "DistilGPT-2", score_d); (py "GPT-Neo-125M", score_n)]
              (py "GPT-Neo-125M")) with (Some score_n).
    change (dict_get [(py "DistilGPT-2", score_d); (py "GPT-Neo-125M", score_n)]
              (py "DistilGPT-2")) with (Some score_d).
    cbn [py_gt]. destruct (score_n >? score_d)%Z; reflexivity. }
  rewrite E.
  destruct (score_n >? score_d)%Z; reflexivity.
Qed.

(** C7, amended.  The instruction is a function of the four fields alone.
    In a comparison the template block runs again for every backend call,
    right before it, not once for the comparison; as it depends on the
    fields only, the backend calls of both registered models are given the
    same instruction text, the one built from the fields: DistilGPT-2's
    call at the state the comparison starts in, GPT-Neo's call at the state
    that call left.  The comparison raises what the first raising call
    raised, and when both calls return it stores their stripped texts. *)
Theorem same_instruction_for_every_model :
  forall (B : Backend) (description modality condition details : pystr)
         (max_length : Z) (w : world),
    let instruction := base_prompt description modality condition details in
    let first :=
      run_model (ensure_pad_token (from_pretrained (py "distilgpt2")))
        (py "distilgpt2") instruction max_length (sampler w) in
    let second :=
      run_model (ensure_pad_token (from_pretrained (py "EleutherAI/gpt-neo-125M")))
        (py "EleutherAI/gpt-neo-125M") instruction max_length (snd first) in
    let run := compare description modality condition details max_length w in
    match fst first with
    | inl e =>
        fst run = inl e /\
        sampler (snd run) = snd first /\
        log (snd run) =
          log w ++ [Templated instruction;
                    Invoked (py "DistilGPT-2") instruction max_length]
    | inr raw_d =>
        sampler (snd run) = snd second /\
        log (snd run) =
          log w ++ [Templated instruction;
                    Invoked (py "DistilGPT-2") instruction max_length;
                    Templated instruction;
                    Invoked (py "GPT-Neo-125M") instruction max_length] /\
        match fst second with
        | inl e => fst run = inl e
        | inr raw_n =>
            exists res,
              fst run = inr res /\
              generated res = [(py "DistilGPT-2", strip raw_d);
                               (py "GPT-Neo-125M", strip raw_n)]
        end
    end.
Proof.
  intros B description modality condition details max_length w
         instruction first second run.
  unfold run. rewrite compare_models_exact.
  fold instruction. fold first. fold second.
  destruct (fst first) as [e|raw_d].
  - repeat split; reflexivity.
  - destruct (fst second) as [e|raw_n].
    + repeat split; reflexivity.
    + split; [reflexivity|]. split; [reflexivity|].
      exists (two_model_result (strip raw_d) (strip raw_n)).
      split; reflexivity.
Qed.

Lemma same_instruction_for_every_model_witness :
  exists res,
    fst (compare (B:=neo_continues_backend) (py "lungs") (py "CT") [] [] 100
           (@fresh_world neo_continues_backend 0%nat)) = inr res /\
    generated res =
      [(py "DistilGPT-2", base_prompt (py "lungs") (py "CT") [] []);
       (py "GPT-Neo-125M",
        base_prompt (py "lungs") (py "CT") [] [] ++
        py " Display axial slices with contrast.")].
Proof.
  destruct (@same_instruction_for_every_model neo_continues_backend
              (py "lungs") (py "CT") [] [] 100%Z
              (@fresh_world neo_continues_backend 0%nat)) as [_ [_ H]].
  exact H.
Defined.


(* ================================================================== *)
(** ** A backend that raises *)

(** C5, as the specification states it, fails on the identification: when
    DistilGPT-2's backend is down and when GPT-Neo's backend is down the
    page shows the same banner, the backend's own exception, so the error
    does not tell which model failed. *)
Lemma error_banner_hides_failing_model :
  fst (on_generate_prompts (B:=down_backend (py "distilgpt2"))
         (py "human brain") (py "MRI") [] [] 100
         (@fresh_world (down_backend (py "distilgpt2")) 0%nat)) =
    ErrorBanner (Raised (py "backend unavailable")) /\
  fst (on_generate_prompts (B:=down_backend (py "EleutherAI/gpt-neo-125M"))
         (py "human brain") (py "MRI") [] [] 100
         (@fresh_world (down_backend (py "EleutherAI/gpt-neo-125M")) 0%nat)) =
    ErrorBanner (Raised (py "backend unavailable")) /\
  invoked_models
    (log (snd (on_generate_prompts (B:=down_backend (py "distilgpt2"))
                 (py "human brain") (py "MRI") [] [] 100
                 (@fresh_world (down_backend (py "distilgpt2")) 0%nat)))) =
    [py "DistilGPT-2"] /\
  invoked_models
    (log (snd (on_generate_prompts (B:=down_backend (py "EleutherAI/gpt-neo-125M"))
                 (py "human brain") (py "MRI") [] [] 100
                 (@fresh_world (down_backend (py "EleutherAI/gpt-neo-125M")) 0%nat)))) =
    [py "DistilGPT-2"; py "GPT-Neo-125M"].
Proof. repeat split; vm_compute; reflexivity. Qed.

(** C5, amended.  When a backend call raises during generation the
    comparison stops there and the whole request fails: the models after
    it are not called, the texts of the models before it are dropped, and
    no result, partial or full, is rendered.  What the page shows is the
    exception of that call as it was raised, in the error banner: it is not
    wrapped in another error and no model name is added to it.  Only an
    exception outside the [Exception] class is not caught and leaves the
    handler with neither banner nor result.  A result is rendered exactly
    when the calls of both registered models returned, and it then holds
    both models. *)
Theorem backend_failure_fails_whole_comparison :
  forall (B : Backend) (description modality condition details : pystr)
         (max_length : Z) (w : world),
    let instruction := base_prompt description modality condition details in
    let first :=
      run_model (ensure_pad_token (from_pretrained (py "distilgpt2")))
        (py "distilgpt2") instruction max_length (sampler w) in
    let second :=
      run_model (ensure_pad_token (from_pretrained (py "EleutherAI/gpt-neo-125M")))
        (py "EleutherAI/gpt-neo-125M") instruction max_length (snd first) in
    on_generate_prompts description modality condition details max_length w =
    match fst first with
    | inl e =>
        (if is_Exception e then ErrorBanner e else Uncaught e,
         {| sampler := snd first;
            log := log w ++
                   [Templated instruction;
                    Invoked (py "DistilGPT-2") instruction max_length] |})
    | inr raw_d =>
        match fst second with
        | inl e =>
            (if is_Exception e then ErrorBanner e else Uncaught e,
             {| sampler := snd second;
                log := log w ++
                       [Templated instruction;
                        Invoked (py "DistilGPT-2") instruction max_length;
                        Templated instruction;
                        Invoked (py "GPT-Neo-125M") instruction max_length] |})
        | inr raw_n =>
            (Rendered (two_model_result (strip raw_d) (strip raw_n)),
             {| sampler := snd second;
                log := log w ++
                       [Templated instruction;
                        Invoked (py "DistilGPT-2") instruction max_length;
                        Templated instruction;
                        Invoked (py "GPT-Neo-125M") instruction max_length] |})
        end
    end.
Proof.
  intros B description modality condition details max_length w
         instruction first second.
  unfold on_generate_prompts. rewrite compare_models_exact.
  fold instruction. fold first. fold second.
  destruct (fst first) as [e|raw_d]; [reflexivity|].
  destruct (fst second) as [e|raw_n]; reflexivity.
Qed.

Lemma backend_failure_fails_whole_comparison_witness :
  on_generate_prompts (B:=down_backend (py "EleutherAI/gpt-neo-125M"))
    (py "lungs") (py "CT") [] [] 100
    (@fresh_world (down_backend (py "EleutherAI/gpt-neo-125M")) 0%nat) =
  (ErrorBanner (Raised (py "backend unavailable")),
   @Build_world (down_backend (py "EleutherAI/gpt-neo-125M")) 1%nat
     [Templated (base_prompt (py "lungs") (py "CT") [] []);
      Invoked (py "DistilGPT-2") (base_prompt (py "lungs") (py "CT") [] []) 100%Z;
      Templated (base_prompt (py "lungs") (py "CT") [] []);
      Invoked (py "GPT-Neo-125M") (base_prompt (py "lungs") (py "CT") [] []) 100%Z]).
Proof.
  exact (@backend_failure_fails_whole_comparison
           (down_backend (py "EleutherAI/gpt-neo-125M"))
           (py "lungs") (py "CT") [] [] 100%Z
           (@fresh_world (down_backend (py "EleutherAI/gpt-neo-125M")) 0%nat)).
Defined.

Example interrupt_is_not_caught :
  fst (on_generate_prompts (B:=interrupted_backend (py "distilgpt2"))
         (py "lungs") (py "CT") [] [] 100
         (@fresh_world (interrupted_backend (py "distilgpt2")) 0%nat)) =
  Uncaught (RaisedBaseException (py "KeyboardInterrupt")).
Proof. vm_compute. reflexivity. Qed.


(* ================================================================== *)
(** * Further properties of the script *)

(** ** Whitespace, [split] and [strip] *)

Lemma split_from_all_space (ws word : pystr) :
  all_space ws = true -> split_from word ws = flush word.
Proof.
  induction ws as [|c ws IH] in word |- *; simpl; [reflexivity|].
  intros H. apply andb_true_iff in H. destruct H as [Hc Hws].
  rewrite Hc, (IH [] Hws). simpl. apply app_nil_r.
Qed.

Lemma split_from_space_tail (s ws word : pystr) :
  all_space ws = true -> split_from word (s ++ ws) = split_from word s.
Proof.
  intros Hws. induction s as [|c s IH] in word |- *; simpl.
  - apply split_from_all_space, Hws.
  - destruct (isspace c); [rewrite IH; reflexivity | apply IH].
Qed.

Lemma split_lstrip (s : pystr) : split (lstrip s) = split s.
Proof.
  unfold split. induction s as [|c s IH]; simpl; [reflexivity|].
  destruct (isspace c) eqn:Hc; simpl; [exact IH | rewrite Hc; reflexivity].
Qed.

Lemma lstrip_decomposition (s : pystr) :
  exists ws, s = ws ++ lstrip s /\ all_space ws = true.
Proof.
  induction s as [|c s [ws [Hs Hws]]]; simpl.
  - exists []. split; reflexivity.
  - destruct (isspace c) eqn:Hc.
    + exists (c :: ws). simpl. rewrite Hc, Hws. split; [f_equal; exact Hs | reflexivity].
    + exists []. split; reflexivity.
Qed.

Lemma all_space_rev (ws : pystr) : all_space (rev ws) = all_space ws.
Proof.
  unfold all_space. induction ws as [|c ws IH]; simpl; [reflexivity|].
  rewrite forallb_app, IH. simpl. rewrite andb_true_r. apply andb_comm.
Qed.

(** What [rstrip] removes is a run of whitespace at the end. *)
Lemma rstrip_decomposition (s : pystr) :
  exists ws, s = rstrip s ++ ws /\ all_space ws = true.
Proof.
  destruct (lstrip_decomposition (rev s)) as [ws [Hs Hws]].
  exists (rev ws). split.
  - unfold rstrip. rewrite <- rev_app_distr, <- Hs. symmetry. apply rev_involutive.
  - rewrite all_space_rev. exact Hws.
Qed.

Lemma split_rstrip (s : pystr) : split (rstrip s) = split s.
Proof.
  destruct (rstrip_decomposition s) as [ws [Hs Hws]].
  rewrite Hs at 2. unfold split. symmetry. apply split_from_space_tail, Hws.
Qed.

Lemma split_strip (s : pystr) : split (strip s) = split s.
Proof. unfold strip. rewrite split_rstrip. apply split_lstrip. Qed.

(** X1.  Scoring ignores leading and trailing whitespace: the text returned
    by [generate_prompt_with_model], which is stripped, scores the same as
    the raw text the backend decoded. *)
Theorem evaluate_prompt_ignores_outer_whitespace :
  forall raw : pystr,
    split (strip raw) = split raw /\
    evaluate_prompt (strip raw) = evaluate_prompt raw.
Proof.
  intros raw. split; [apply split_strip|].
  unfold evaluate_prompt. rewrite split_strip. reflexivity.
Qed.

Lemma split_from_separator (a b word : pystr) (c : N) :
  isspace c = true ->
  split_from word (a ++ c :: b) = split_from word a ++ split_from [] b.
Proof.
  intros Hc. induction a as [|x a IH] in word |- *; simpl.
  - rewrite Hc. reflexivity.
  - destruct (isspace x); [rewrite IH, app_assoc; reflexivity | apply IH].
Qed.

(** X2.  Scores add up over texts joined by a whitespace character: the
    words of [a], a whitespace character and [b] are the words of [a]
    followed by the words of [b], and each of the three scores of the
    joined text is the sum of the scores of the two parts. *)
Theorem evaluate_prompt_additive :
  forall (a b : pystr) (c : N),
    isspace c = true ->
    split (a ++ c :: b) = split a ++ split b /\
    length_score_of (a ++ c :: b) = (length_score_of a + length_score_of b)%Z /\
    clarity_score_of (a ++ c :: b) = (clarity_score_of a + clarity_score_of b)%Z /\
    final_score_of (a ++ c :: b) = (final_score_of a + final_score_of b)%Z.
Proof.
  intros a b c Hc.
  assert (E : split (a ++ c :: b) = split a ++ split b)
    by (apply split_from_separator, Hc).
  split; [exact E|].
  unfold length_score_of, clarity_score_of, final_score_of, evaluate_prompt, len.
  cbn [fst snd]. rewrite E, filter_app, !length_app, !Nat2Z.inj_add.
  split; [reflexivity|]. split; [reflexivity|]. apply Z.add_shuffle1.
Qed.

Lemma evaluate_prompt_additive_witness :
  final_score_of (py "axial slices" ++ 32%N :: py "with contrast") =
  (final_score_of (py "axial slices") + final_score_of (py "with contrast"))%Z.
Proof.
  apply (evaluate_prompt_additive (py "axial slices") (py "with contrast") 32%N).
  reflexivity.
Defined.

Lemma filter_nil_all_space (s : pystr) :
  filter (fun c => negb (isspace c)) s = [] -> all_space s = true.
Proof.
  induction s as [|c s IH]; simpl; [reflexivity|].
  destruct (isspace c); simpl; [exact IH | discriminate].
Qed.

Lemma split_nil_iff (s : pystr) : split s = [] <-> all_space s = true.
Proof.
  split.
  - intros H. apply filter_nil_all_space. rewrite <- tokens_from_concat.
    fold (whitespace_delimited_tokens s). rewrite <- split_tokens, H. reflexivity.
  - intros H. unfold split. rewrite (@split_from_all_space s [] H). reflexivity.
Qed.

Lemma lstrip_nil_iff (s : pystr) : lstrip s = [] <-> all_space s = true.
Proof.
  induction s as [|c s IH]; simpl; [tauto|].
  destruct (isspace c); simpl; [exact IH|]. split; discriminate.
Qed.

Lemma strip_nil_iff (s : pystr) : strip s = [] <-> all_space s = true.
Proof.
  split.
  - intros H. apply split_nil_iff. rewrite <- split_strip, H. reflexivity.
  - intros H. apply lstrip_nil_iff in H. unfold strip. rewrite H. reflexivity.
Qed.

Lemma score_relations (text : pystr) :
  (0 <= clarity_score_of text <= length_score_of text)%Z /\
  final_score_of text = (length_score_of text + clarity_score_of text)%Z /\
  length_score_of text = Z.of_nat (List.length (split text)).
Proof.
  unfold clarity_score_of, length_score_of, final_score_of, evaluate_prompt, len.
  cbn [fst snd].
  split; [|split; reflexivity].
  match goal with
  | |- context [Z.of_nat (List.length (filter ?f ?l))] =>
      pose proof (filter_shorter f l) as H;
      set (a := List.length (filter f l)) in *;
      set (b := List.length l) in *
  end.
  assert (Hab : (a <= b)%nat) by exact H.
  clearbody a b. lia.
Qed.

(** X3.  A text gets the final score 0 exactly when it holds no word, that
    is when it is empty or made of whitespace only; this is also exactly
    when stripping it leaves the empty text, and then all three scores
    are 0. *)
Theorem zero_score_iff_blank :
  forall text : pystr,
    (final_score_of text = 0%Z <-> all_space text = true) /\
    (strip text = [] <-> all_space text = true) /\
    (evaluate_prompt text = (0, 0, 0)%Z <-> all_space text = true).
Proof.
  intros text.
  assert (Z0 : split text = [] -> evaluate_prompt text = (0, 0, 0)%Z).
  { intros H. unfold evaluate_prompt. rewrite H. reflexivity. }
  assert (F : final_score_of text = 0%Z -> split text = []).
  { intros H. destruct (score_relations text) as [[Hc _] [Hf Hl]].
    apply length_zero_iff_nil.
    generalize dependent (List.length (split text)). intros n Hn.
    rewrite H in Hf. lia. }
  split; [|split].
  - rewrite <- split_nil_iff. split; [exact F|].
    intros H. unfold final_score_of. rewrite (Z0 H). reflexivity.
  - apply strip_nil_iff.
  - rewrite <- split_nil_iff. split; [|exact Z0].
    intros H. apply F. unfold final_score_of. rewrite H. reflexivity.
Qed.

(** ** What [strip] leaves *)

Lemma lstrip_head (s : pystr) (c : N) :
  hd_error (lstrip s) = Some c -> isspace c = false.
Proof.
  induction s as [|x s IH]; simpl; [discriminate|].
  destruct (isspace x) eqn:Hx; [exact IH|]. simpl. intros H. congruence.
Qed.

Lemma lstrip_fixed (s : pystr) :
  (forall c, hd_error s = Some c -> isspace c = false) -> lstrip s = s.
Proof.
  destruct s as [|x s]; simpl; [reflexivity|].
  intros H. rewrite (H x eq_refl). reflexivity.
Qed.

Lemma strip_last (s : pystr) (c : N) :
  hd_error (rev (strip s)) = Some c -> isspace c = false.
Proof.
  unfold strip, rstrip. rewrite rev_involutive. apply lstrip_head.
Qed.

Lemma strip_head (s : pystr) (c : N) :
  hd_error (strip s) = Some c -> isspace c = false.
Proof.
  unfold strip. destruct (rstrip_decomposition (lstrip s)) as [ws [Hs _]].
  intros H. apply (@lstrip_head s c). rewrite Hs.
  destruct (rstrip (lstrip s)); [discriminate | exact H].
Qed.

Lemma strip_idempotent (s : pystr) : strip (strip s) = strip s.
Proof.
  unfold strip at 1.
  rewrite (lstrip_fixed (strip s)) by (intros c; apply strip_head).
  unfold rstrip. rewrite lstrip_fixed by (intros c; apply strip_last).
  apply rev_involutive.
Qed.

Lemma generate_prompt_with_model_result (B : Backend)
    (tokenizers : pydict tokenizer) (objects : pydict pystr)
    (model_name description modality condition details : pystr)
    (max_length : Z) (w w' : world) (output : pystr) :
  generate_prompt_with_model tokenizers objects model_name
    description modality condition details max_length w = (inr output, w') ->
  exists tok path raw,
    dict_get tokenizers model_name = Some tok /\
    dict_get objects model_name = Some path /\
    run_model tok path (base_prompt description modality condition details)
      max_length (sampler w) = (inr raw, sampler w') /\
    output = strip raw.
Proof.
  unfold generate_prompt_with_model, bind, subscript, emit, call_backend, ret, raise.
  destruct (dict_get tokenizers model_name) as [tok|]; [|discriminate].
  destruct (dict_get objects model_name) as [path|]; [|discriminate].
  simpl.
  destruct (run_model tok path (base_prompt description modality condition details)
              max_length (sampler w)) as [[e|raw] s'] eqn:E; [discriminate|].
  intros H. inversion H; subst. simpl.
  exists tok, path, raw. repeat split; try reflexivity. exact E.
Qed.

(** X4.  Every text [generate_prompt_with_model] returns is the stripped
    form of what the backend decoded: it neither begins nor ends with a
    whitespace character, stripping it again changes nothing, and it scores
    as the decoded text does. *)
Theorem generated_text_is_stripped :
  forall (B : Backend) (tokenizers : pydict tokenizer) (objects : pydict pystr)
         (model_name description modality condition details : pystr)
         (max_length : Z) (w w' : world) (output : pystr),
    generate_prompt_with_model tokenizers objects model_name
      description modality condition details max_length w = (inr output, w') ->
    strip output = output /\
    (forall c, hd_error output = Some c -> isspace c = false) /\
    (forall c, hd_error (rev output) = Some c -> isspace c = false) /\
    exists tok path raw,
      dict_get tokenizers model_name = Some tok /\
      dict_get objects model_name = Some path /\
      run_model tok path (base_prompt description modality condition details)
        max_length (sampler w) = (inr raw, sampler w') /\
      output = strip raw /\
      evaluate_prompt output = evaluate_prompt raw.
Proof.
  intros B tokenizers objects model_name description modality condition details
         max_length w w' output H.
  destruct (generate_prompt_with_model_result _ _ _ _ _ _ _ _ _ H)
    as [tok [path [raw [Ht [Ho [Hrun ->]]]]]].
  split; [apply strip_idempotent|].
  split; [intros c; apply strip_head|].
  split; [intros c; apply strip_last|].
  exists tok, path, raw. repeat split; try assumption.
  unfold evaluate_prompt. rewrite split_strip. reflexivity.
Qed.

Lemma generated_text_is_stripped_witness :
  strip (py "Generate a CT scan of lungs.") = py "Generate a CT scan of lungs.".
Proof.
  apply (@generated_text_is_stripped padded_backend
           (@model_tokenizers padded_backend models) (model_objects models)
           (py "DistilGPT-2") (py "lungs") (py "CT") [] [] 100%Z
           (@fresh_world padded_backend 0%nat)
           (@Build_world padded_backend 1%nat
              [Templated (base_prompt (py "lungs") (py "CT") [] []);
               Invoked (py "DistilGPT-2")
                 (base_prompt (py "lungs") (py "CT") [] []) 100%Z])).
  reflexivity.
Defined.

(** ** The preview of the first ten words (line 108) *)

Lemma split_from_word (w rest word : pystr) :
  no_space w = true -> split_from word (w ++ rest) = split_from (word ++ w) rest.
Proof.
  induction w as [|x w IH] in word |- *; simpl; intros H.
  - rewrite app_nil_r. reflexivity.
  - apply andb_true_iff in H. destruct H as [Hx Hw].
    apply negb_true_iff in Hx. rewrite Hx, (IH _ Hw), <- app_assoc. reflexivity.
Qed.

(** Splitting undoes joining by single spaces, on words. *)
Lemma split_join_space (ws : list pystr) :
  Forall is_word ws -> split (join_space ws) = ws.
Proof.
  unfold split. induction 1 as [|w more [Hne Hns] Hmore IH]; [reflexivity|].
  destruct more as [|m more].
  - simpl. rewrite <- (app_nil_r w) at 1. rewrite (@split_from_word w [] [] Hns). simpl.
    destruct w; [congruence | reflexivity].
  - change (join_space (w :: m :: more))
      with (w ++ 32%N :: join_space (m :: more)).
    rewrite (@split_from_word w _ [] Hns).
    change (split_from ([] ++ w) (32%N :: join_space (m :: more)))
      with (flush w ++ split_from [] (join_space (m :: more))).
    rewrite IH.
    destruct w; [congruence | reflexivity].
Qed.

Lemma split_words (s : pystr) : Forall is_word (split s).
Proof.
  apply Forall_forall. intros t Ht. rewrite split_tokens in Ht.
  apply tokens_from_shape in Ht. exact Ht.
Qed.

Lemma Forall_first (A : Type) (P : A -> Prop) (n : nat) (l : list A) :
  Forall P l -> Forall P (firstn n l).
Proof.
  intros H. induction H as [|x l Hx Hl IH] in n |- *; destruct n; simpl;
    constructor; auto.
Qed.

(** X5.  The preview shown for a generated text, its first ten words
    joined by single spaces, splits back into exactly those words; it has
    ten words or as many as the text when the text has fewer; and for a text
    of at most ten words it gets the same three scores as the text. *)
Theorem first_words_preview :
  forall (model_name text : pystr),
    let preview := metrics_first_words (metrics_of (model_name, text)) in
    preview = join_space (firstn 10 (split text)) /\
    split preview = firstn 10 (split text) /\
    length_score_of preview = Z.min 10 (length_score_of text) /\
    ((length_score_of text <= 10)%Z ->
       split preview = split text /\
       evaluate_prompt preview = evaluate_prompt text).
Proof.
  intros model_name text preview.
  assert (E : preview = join_space (firstn 10 (split text))) by reflexivity.
  assert (S : split preview = firstn 10 (split text)).
  { rewrite E. apply split_join_space, Forall_first, split_words. }
  split; [exact E|]. split; [exact S|].
  destruct (score_relations text) as [_ [_ Hl]].
  destruct (score_relations preview) as [_ [_ Hp]].
  rewrite Hp, Hl, S, length_firstn, Nat2Z.inj_min.
  split; [reflexivity|].
  intros Hle.
  assert (A : firstn 10 (split text) = split text).
  { apply firstn_all2. lia. }
  split; [exact A|].
  unfold evaluate_prompt. rewrite S, A. reflexivity.
Qed.

Lemma first_words_preview_witness :
  evaluate_prompt
    (metrics_first_words (metrics_of (py "DistilGPT-2", py "  axial   T2 slices "))) =
  evaluate_prompt (py "  axial   T2 slices ").
Proof.
  apply (first_words_preview (py "DistilGPT-2") (py "  axial   T2 slices ")).
  vm_compute. discriminate.
Defined.

(** ** Looking up the model in [generate_prompt_with_model] (lines 25-26) *)

(** X6.  For a model name that has no tokenizer or no loaded model,
    [generate_prompt_with_model] raises [KeyError] with that name: the
    instruction has been built, but the backend is not called and the
    sampler state is left as it was. *)
Theorem generate_prompt_unknown_model :
  forall (B : Backend) (tokenizers : pydict tokenizer) (objects : pydict pystr)
         (model_name description modality condition details : pystr)
         (max_length : Z) (w : world),
    dict_get tokenizers model_name = None \/
    dict_get objects model_name = None ->
    generate_prompt_with_model tokenizers objects model_name
      description modality condition details max_length w =
    (inl (KeyError model_name),
     {| sampler := sampler w;
        log := log w ++
               [Templated (base_prompt description modality condition details)] |}) /\
    invoked_models
      (log (snd (generate_prompt_with_model tokenizers objects model_name
                   description modality condition details max_length w))) =
    invoked_models (log w).
Proof.
  intros B tokenizers objects model_name description modality condition details
         max_length w H.
  assert (E : generate_prompt_with_model tokenizers objects model_name
                description modality condition details max_length w =
              (inl (KeyError model_name),
               {| sampler := sampler w;
                  log := log w ++
                    [Templated (base_prompt description modality condition details)] |})).
  { unfold generate_prompt_with_model, bind, subscript, emit, raise, ret.
    destruct (dict_get tokenizers model_name) as [tok|] eqn:Et; [|reflexivity].
    destruct H as [H|H]; [discriminate|]. rewrite H. reflexivity. }
  split; [exact E|].
  rewrite E. simpl. rewrite invoked_models_app. simpl. apply app_nil_r.
Qed.

Lemma generate_prompt_unknown_model_witness :
  generate_prompt_with_model (B:=echo_backend)
    (@model_tokenizers echo_backend models) (model_objects models)
    (py "GPT-4") (py "human brain") (py "MRI") [] [] 100
    (@fresh_world echo_backend 0%nat) =
  (inl (KeyError (py "GPT-4")),
   @Build_world echo_backend 0%nat
     [Templated (base_prompt (py "human brain") (py "MRI") [] [])]).
Proof.
  apply (@generate_prompt_unknown_model echo_backend
           (@model_tokenizers echo_backend models) (model_objects models)
           (py "GPT-4") (py "human brain") (py "MRI") [] [] 100%Z
           (@fresh_world echo_backend 0%nat)).
  left. reflexivity.
Defined.



(** ** What a returned comparison puts on the page (lines 81-116) *)

Lemma map_snd_combine (A C : Type) (l : list A) (l' : list C) :
  List.length l' = List.length l -> map snd (combine l l') = l'.
Proof.
  revert l'; induction l as [|x l IH]; intros [|y l']; simpl; intros H;
    try reflexivity; try discriminate.
  f_equal. apply IH. lia.
Qed.

(** The accumulators of a comparison that returns, as lists over the
    registered names. *)
Lemma compare_over_lists (B : Backend) (registry : pydict pystr)
    (description modality condition details : pystr) (max_length : Z)
    (w w' : world) (res : comparison) :
  NoDup (dict_keys registry) ->
  compare_over registry description modality condition details max_length w =
    (inr res, w') ->
  exists outputs,
    List.length outputs = List.length (dict_keys registry) /\
    generated res = combine (dict_keys registry) outputs /\
    scores res = combine (dict_keys registry) (map final_score_of outputs) /\
    chart_models res = dict_keys registry /\
    chart_length_scores res = map length_score_of outputs /\
    chart_clarity_scores res = map clarity_score_of outputs /\
    report res = map metrics_of (combine (dict_keys registry) outputs).
Proof.
  intros Hnd. unfold compare_over, compare_with. unfold bind at 1.
  pose proof (@generation_loop_spec B (model_tokenizers registry)
                (model_objects registry) description modality condition details
                max_length (dict_keys registry) empty_accumulators w) as Hloop.
  destruct (generation_loop (model_tokenizers registry) (model_objects registry)
              (dict_keys registry) description modality condition details
              max_length empty_accumulators w) as [[e|acc] w1]; [discriminate|].
  destruct Hloop as [outputs [Hlen [Hr [Hs [Hls [Hcs _]]]]]];
    try assumption; try (intros k Hk; simpl; tauto).
  { intros k Hk. destruct (dict_get_key _ _ Hk) as [path Hpath].
    destruct (@startup_lookups B registry k Hnd) as [E1 E2].
    rewrite Hpath in E1, E2. eauto. }
  simpl in Hr, Hs, Hls, Hcs.
  unfold bind, lift, subscript, ret, raise.
  destruct (py_max (dict_keys (model_scores acc)) (dict_get (model_scores acc)))
    as [e|best]; [discriminate|].
  destruct (dict_get (results acc) best) as [bp|]; [|discriminate].
  intros H. inversion H; subst res w1. clear H.
  exists outputs. cbn [generated scores chart_models chart_length_scores
                       chart_clarity_scores report].
  unfold dict_items. rewrite Hr, Hs, Hls, Hcs. repeat split; assumption.
Qed.

(** X8.  In a comparison that returns, the figures shown for each model,
    which the report loop computes again from the stored text, agree with
    what the generation loop stored: every report block is that of a stored
    text, its final score is the one recorded in [model_scores] for its
    model (the one the best model was chosen by), and it is the sum of the
    length and clarity scores shown. *)
Theorem report_agrees_with_scores :
  forall (B : Backend) (entries : list (pystr * pystr))
         (description modality condition details : pystr) (max_length : Z)
         (w w' : world) (res : comparison),
    compare_over (dict_literal entries) description modality condition details
      max_length w = (inr res, w') ->
    forall row, In row (report res) ->
      exists text,
        dict_get (generated res) (metrics_model row) = Some text /\
        row = metrics_of (metrics_model row, text) /\
        dict_get (scores res) (metrics_model row) = Some (metrics_final row) /\
        metrics_final row = (metrics_length row + metrics_clarity row)%Z /\
        metrics_comment row = comment (metrics_final row).
Proof.
  intros B entries description modality condition details max_length w w' res H
         row Hrow.
  pose proof (dict_literal_keys_NoDup entries) as Hnd.
  destruct (@compare_over_lists B _ _ _ _ _ _ _ _ _ Hnd H)
    as [outputs [Hlen [Hg [Hs [_ [_ [_ Hrep]]]]]]].
  rewrite Hrep in Hrow. apply in_map_iff in Hrow.
  destruct Hrow as [[k text] [<- Hin]].
  assert (Hk : NoDup (dict_keys (combine (dict_keys (dict_literal entries)) outputs))).
  { rewrite dict_keys_combine; assumption. }
  exists text. rewrite metrics_of_entry. cbn [metrics_model metrics_final
    metrics_length metrics_clarity metrics_comment].
  split; [rewrite Hg; apply dict_get_In; assumption|].
  split; [reflexivity|].
  split.
  - rewrite Hs, combine_map_values, dict_get_map_values.
    rewrite (@dict_get_In _ _ _ _ Hk Hin). reflexivity.
  - split; [apply score_relations | reflexivity].
Qed.

Lemma report_agrees_with_scores_witness :
  exists text,
    text = base_prompt (py "lungs") (py "CT") [] [] /\
    metrics_final (metrics_of (py "DistilGPT-2", text)) =
    (metrics_length (metrics_of (py "DistilGPT-2", text)) +
     metrics_clarity (metrics_of (py "DistilGPT-2", text)))%Z.
Proof.
  exists (base_prompt (py "lungs") (py "CT") [] []). split; [reflexivity|].
  destruct (compare_over (B:=echo_backend)
              (dict_literal [ (py "DistilGPT-2", py "distilgpt2") ])
              (py "lungs") (py "CT") [] [] 100 (@fresh_world echo_backend 0%nat))
    as [[e|res] w'] eqn:E; [vm_compute in E; discriminate|].
  assert (Hrow : In (metrics_of (py "DistilGPT-2",
                                 base_prompt (py "lungs") (py "CT") [] []))
                    (report res)).
  { vm_compute in E. inversion E. vm_compute. left. reflexivity. }
  destruct (@report_agrees_with_scores echo_backend
              [ (py "DistilGPT-2", py "distilgpt2") ]
              (py "lungs") (py "CT") [] [] 100%Z
              (@fresh_world echo_backend 0%nat) w' res E _ Hrow)
    as [text [_ [_ [_ [Hsum _]]]]].
  exact Hsum.
Defined.

(** X9.  In a comparison that returns, the bar chart is aligned: the list
    of model names, the list of length scores and the list of clarity
    scores given to the chart have one element per registered model, and
    their elements at each position are the name, the length score and the
    clarity score of the report block at that position. *)
Theorem chart_aligned_with_report :
  forall (B : Backend) (entries : list (pystr * pystr))
         (description modality condition details : pystr) (max_length : Z)
         (w w' : world) (res : comparison),
    compare_over (dict_literal entries) description modality condition details
      max_length w = (inr res, w') ->
    chart_models res = dict_keys (dict_literal entries) /\
    chart_models res = map metrics_model (report res) /\
    chart_length_scores res = map metrics_length (report res) /\
    chart_clarity_scores res = map metrics_clarity (report res) /\
    List.length (chart_length_scores res) = List.length (chart_models res) /\
    List.length (chart_clarity_scores res) = List.length (chart_models res).
Proof.
  intros B entries description modality condition details max_length w w' res H.
  pose proof (dict_literal_keys_NoDup entries) as Hnd.
  destruct (@compare_over_lists B _ _ _ _ _ _ _ _ _ Hnd H)
    as [outputs [Hlen [_ [_ [Hm [Hl [Hc Hrep]]]]]]].
  rewrite Hm, Hl, Hc, Hrep, !map_map, !length_map.
  split; [reflexivity|].
  split.
  { transitivity (map fst (combine (dict_keys (dict_literal entries)) outputs)).
    - symmetry. apply (dict_keys_combine _ _ Hlen).
    - apply map_ext. intros [k text]. reflexivity. }
  split.
  { rewrite <- (map_snd_combine (dict_keys (dict_literal entries)) outputs Hlen) at 1.
    rewrite map_map. apply map_ext. intros [k text]. reflexivity. }
  split.
  { rewrite <- (map_snd_combine (dict_keys (dict_literal entries)) outputs Hlen) at 1.
    rewrite map_map. apply map_ext. intros [k text]. reflexivity. }
  split; assumption.
Qed.

Lemma chart_aligned_with_report_witness :
  match compare_over (B:=neo_continues_backend)
          (dict_literal [ (py "DistilGPT-2", py "distilgpt2");
                          (py "GPT-Neo-125M", py "EleutherAI/gpt-neo-125M") ])
          (py "lungs") (py "CT") [] [] 100
          (@fresh_world neo_continues_backend 0%nat) with
  | (inr res, _) => chart_length_scores res = map metrics_length (report res)
  | (inl _, _) => False
  end.
Proof.
  destruct (compare_over (B:=neo_continues_backend)
              (dict_literal [ (py "DistilGPT-2", py "distilgpt2");
                              (py "GPT-Neo-125M", py "EleutherAI/gpt-neo-125M") ])
              (py "lungs") (py "CT") [] [] 100
              (@fresh_world neo_continues_backend 0%nat))
    as [[e|res] w'] eqn:E; [vm_compute in E; discriminate|].
  apply (@chart_aligned_with_report neo_continues_backend
           [ (py "DistilGPT-2", py "distilgpt2");
             (py "GPT-Neo-125M", py "EleutherAI/gpt-neo-125M") ]
           (py "lungs") (py "CT") [] [] 100%Z
           (@fresh_world neo_continues_backend 0%nat) w' res E).
Defined.

(** X10.  In a comparison that returns, the prompt shown as the best one
    is the text stored for the best model, and no stored text has a larger
    final score than it. *)
Theorem best_prompt_has_highest_score :
  forall (B : Backend) (entries : list (pystr * pystr))
         (description modality condition details : pystr) (max_length : Z)
         (w w' : world) (res : comparison),
    compare_over (dict_literal entries) description modality condition details
      max_length w = (inr res, w') ->
    dict_get (generated res) (best_model res) = Some (best_prompt res) /\
    dict_get (scores res) (best_model res) =
      Some (final_score_of (best_prompt res)) /\
    (forall k text,
       dict_get (generated res) k = Some text ->
       (final_score_of text <= final_score_of (best_prompt res))%Z).
Proof.
  intros B entries description modality condition details max_length w w' res H.
  pose proof (@compare_over_spec B (dict_literal entries) description modality
                condition details max_length w
                (dict_literal_keys_NoDup entries)) as Hspec.
  rewrite H in Hspec. destruct Hspec as [_ [Hranked _]].
  destruct Hranked as [_ [Hkg [_ [_ [_ [Hent [Hbest [Hmax [_ Hbp]]]]]]]]].
  destruct (Hent _ Hbest) as [tb [Htb [Hsb _]]].
  assert (tb = best_prompt res) by congruence. subst tb.
  split; [exact Hbp|]. split; [exact Hsb|].
  intros k text Hk.
  assert (Hin : In k (dict_keys (dict_literal entries))).
  { rewrite <- Hkg. apply dict_get_Some_In in Hk.
    change k with (fst (k, text)). apply in_map. exact Hk. }
  destruct (Hent _ Hin) as [t [Ht [Hs _]]].
  assert (t = text) by congruence. subst t.
  specialize (Hmax k Hin). unfold score_of in Hmax.
  rewrite Hs, Hsb in Hmax. exact Hmax.
Qed.

Lemma best_prompt_has_highest_score_witness :
  match compare_over (B:=neo_continues_backend)
          (dict_literal [ (py "DistilGPT-2", py "distilgpt2");
                          (py "GPT-Neo-125M", py "EleutherAI/gpt-neo-125M") ])
          (py "lungs") (py "CT") [] [] 100
          (@fresh_world neo_continues_backend 0%nat) with
  | (inr res, _) =>
      dict_get (scores res) (best_model res) =
        Some (final_score_of (best_prompt res))
  | (inl _, _) => False
  end.
Proof.
  destruct (compare_over (B:=neo_continues_backend)
              (dict_literal [ (py "DistilGPT-2", py "distilgpt2");
                              (py "GPT-Neo-125M", py "EleutherAI/gpt-neo-125M") ])
              (py "lungs") (py "CT") [] [] 100
              (@fresh_world neo_continues_backend 0%nat))
    as [[e|res] w'] eqn:E; [vm_compute in E; discriminate|].
  apply (@best_prompt_has_highest_score neo_continues_backend
           [ (py "DistilGPT-2", py "distilgpt2");
             (py "GPT-Neo-125M", py "EleutherAI/gpt-neo-125M") ]
           (py "lungs") (py "CT") [] [] 100%Z
           (@fresh_world neo_continues_backend 0%nat) w' res E).
Defined.

(** ** The comment and the number of words *)

(** X11.  The comment depends on the number of words of the text: a text
    of fewer than 75 words is always told it could be improved, a text told
    it is well-structured has at least 100 words, a text of 200 words or
    more is always told it is well-structured, and a text of 150 words or
    more is never told it could be improved. *)
Theorem comment_by_word_count :
  forall text : pystr,
    let words := length_score_of text in
    let shown := comment (final_score_of text) in
    ((words < 75)%Z ->
       shown = "**Comment:** The generated prompt could be improved by making it more specific and detailed.") /\
    (shown = "**Comment:** The prompt is well-structured and highly descriptive." ->
       (100 <= words)%Z) /\
    ((200 <= words)%Z ->
       shown = "**Comment:** The prompt is well-structured and highly descriptive.") /\
    ((150 <= words)%Z ->
       shown <> "**Comment:** The generated prompt could be improved by making it more specific and detailed.").
Proof.
  intros text words shown.
  destruct (score_relations text) as [[Hc0 Hcl] [Hf _]].
  fold words in Hcl, Hf. subst shown. unfold comment.
  generalize dependent (final_score_of text). intros final Hf.
  generalize dependent (clarity_score_of text). intros clarity Hc0 Hcl Hf.
  clearbody words.
  destruct (final <? 150)%Z eqn:E1;
    [apply Z.ltb_lt in E1 | apply Z.ltb_ge in E1];
    destruct (final >=? 150)%Z eqn:E2;
    destruct (final <? 200)%Z eqn:E3;
    try (apply Z.ltb_lt in E3); try (apply Z.ltb_ge in E3);
    rewrite Z.geb_leb in E2;
    try (apply Z.leb_le in E2); try (apply Z.leb_gt in E2);
    cbn [andb];
    repeat split; intros; try reflexivity; try discriminate; try lia.
Qed.

Lemma comment_by_word_count_witness :
  comment (final_score_of (py "Generate a CT scan of lungs.")) =
  "**Comment:** The generated prompt could be improved by making it more specific and detailed.".
Proof.
  apply (comment_by_word_count (py "Generate a CT scan of lungs.")).
  vm_compute. reflexivity.
Defined.

(** ** Running the padding set-up again *)

Lemma ensure_pad_token_idempotent (t : tokenizer) :
  ensure_pad_token (ensure_pad_token t) = ensure_pad_token t.
Proof.
  destruct t as [n [p|] [e|]]; reflexivity.
Qed.

(** X12.  The padding set-up of lines 12-14 changes nothing when it is run
    a second time, and it keeps the model names, their order, and the
    name and end-of-sequence token of every tokenizer. *)
Theorem ensure_pad_tokens_idempotent :
  forall d : pydict tokenizer,
    ensure_pad_tokens (ensure_pad_tokens d) = ensure_pad_tokens d /\
    dict_keys (ensure_pad_tokens d) = dict_keys d /\
    map eos_token (dict_values (ensure_pad_tokens d)) =
      map eos_token (dict_values d) /\
    map name_or_path (dict_values (ensure_pad_tokens d)) =
      map name_or_path (dict_values d).
Proof.
  intros d. split; [|split; [apply ensure_pad_tokens_keys|]].
  - unfold ensure_pad_tokens. rewrite map_map. apply map_ext.
    intros [k t]. simpl. rewrite ensure_pad_token_idempotent. reflexivity.
  - rewrite ensure_pad_tokens_values, !map_map.
    split; apply map_ext; intros [n [p|] e]; reflexivity.
Qed.

(** ** Fields are pasted into the template as they are *)

(** X13.  The template does not keep its fields apart: a description that
    ends with the text of the base sentence's tail and of a condition
    fragment, with no condition given, yields the very instruction that the
    shorter description and a condition yield.  Different field values can
    thus give the same instruction. *)
Theorem template_fields_can_collide :
  forall (x q modality details : pystr),
    let long_description :=
      x ++ py ". Focus on the medical imaging context only. Focus on capturing " ++ q in
    let condition := q ++ py ". Focus on the medical imaging context only" in
    base_prompt long_description modality [] details =
    base_prompt x modality condition details /\
    long_description <> x /\
    condition <> [].
Proof.
  intros x q modality details long_description condition.
  assert (Hc : condition <> []).
  { unfold condition. destruct q; discriminate. }
  split; [|split; [|exact Hc]].
  - rewrite !base_prompt_shape.
    apply truthy_nonempty in Hc. rewrite Hc. simpl truthy.
    unfold long_description, condition.
    repeat rewrite <- app_assoc. reflexivity.
  - unfold long_description. intros H.
    apply (f_equal (@List.length N)) in H.
    rewrite !length_app in H. simpl in H. lia.
Qed.

(** ** The score of one word *)

(** X14.  A single word counts 1 in the length score, and counts in the
    clarity score only from four characters on: a word of at most three
    characters has the scores (1, 0, 1), a longer one (1, 1, 2). *)
Theorem evaluate_prompt_one_word :
  forall w : pystr,
    is_word w ->
    split w = [w] /\
    ((List.length w <= 3)%nat -> evaluate_prompt w = (1, 0, 1)%Z) /\
    ((4 <= List.length w)%nat -> evaluate_prompt w = (1, 1, 2)%Z).
Proof.
  intros w Hw.
  assert (E : split w = [w]).
  { apply (@split_join_space [w]). constructor; [exact Hw | constructor]. }
  split; [exact E|].
  unfold evaluate_prompt. rewrite E. cbn [filter].
  rewrite long_word_test.
  split; intros H.
  - assert (T : (3 <? List.length w)%nat = false) by (apply Nat.ltb_ge; lia).
    rewrite T. reflexivity.
  - assert (T : (3 <? List.length w)%nat = true) by (apply Nat.ltb_lt; lia).
    rewrite T. reflexivity.
Qed.

Lemma evaluate_prompt_one_word_witness :
  evaluate_prompt (py "MRI") = (1, 0, 1)%Z /\
  evaluate_prompt (py "scan") = (1, 1, 2)%Z.
Proof.
  split.
  - apply (@evaluate_prompt_one_word (py "MRI")).
    + split; [discriminate | reflexivity].
    + vm_compute. repeat constructor.
  - apply (@evaluate_prompt_one_word (py "scan")).
    + split; [discriminate | reflexivity].
    + vm_compute. repeat constructor.
Defined.
